(** * API gateway: desired-state construction and reconciliation diff

    A shallow embedding of three Go sources of the api-gateway controller:

    - [internal/processing/istio/virtual_service_processor.go]
      ([istio.Create], [istio.NewVirtualServiceProcessor]),
    - [internal/processing/processors/virtual_service_processor.go]
      ([processors.EvaluateReconciliation] and its three helpers),
    - the token helper of package [jwt] ([jwt.GetAccessToken]).

    Conventions of the embedding.

    - A Go pointer [*T] that the schema allows to be absent is an
      [option T]; dereferencing [None] is a run-time panic, which the
      [exec] monad records.  A function that may panic returns [exec A].
    - A Go result pair [(v, err)] is a Rocq pair whose second component is
      an [option error] ([None] is Go's [nil] error).
    - A Go [map[string]string] is a [gmap string string]; a slice is a list.
    - Functions, methods and constants of this repository that the three
      sources call but do not define (packages [processing], [helpers], the
      mutator methods of [Rule], the header builder) are fields of type
      classes: every theorem holds for every implementation of them. *)

From Stdlib Require Import ZArith Ascii String List Bool Lia.
From stdpp Require Import base option list strings gmap.

Local Open Scope string_scope.
Local Open Scope Z_scope.

(** ** Go run-time model *)
Module golang.

(** Outcome of running Go code that may dereference a nil pointer. *)
Inductive exec (A : Type) : Type :=
| Done (a : A)
| Panic.
Global Arguments Done {A} a.
Global Arguments Panic {A}.

Definition exec_bind {A B} (f : A → exec B) (m : exec A) : exec B :=
  match m with
  | Done a => f a
  | Panic => Panic
  end.

(** Sequencing: a panic ends the run. *)
Notation "x <- y ; z" := (exec_bind (λ x, z) y)
  (at level 20, y at level 100, z at level 200).
Notation "' x <- y ; z" := (exec_bind (λ x, z) y)
  (at level 20, x pattern, y at level 100, z at level 200).

(** [*p] *)
Definition deref {A} (p : option A) : exec A :=
  match p with
  | Some a => Done a
  | None => Panic
  end.

(** Two's complement wrap-around of a 64-bit signed integer ([int],
    [int64], [time.Duration]). *)
Definition wrap64 (z : Z) : Z :=
  (z + 2 ^ 63) mod 2 ^ 64 - 2 ^ 63.

(** A [uint32] value (a port number). *)
Definition uint32 := Z.

End golang.
Export golang.

(** ** [golang.org/x/oauth2]: the token value *)
Module oauth2.

Record Token := {
  AccessToken : string;
  TokenType : string;
  RefreshToken : string;
  (** [None] is the zero [time.Time] (no expiry); otherwise Unix
      nanoseconds. *)
  Expiry : option Z
}.

End oauth2.

(** ** Errors *)
Module errors.

(** An argument of a [fmt.Errorf] call, kept unformatted. *)
Inductive fmt_arg :=
| ArgString (s : string)
| ArgToken (t : option oauth2.Token).

(** A Go [error] value: either built here with [fmt.Errorf], or handed
    over by a collaborator (cluster client, token endpoint, mutator
    parser). *)
Inductive error :=
| Errorf (format : string) (args : list fmt_arg)
| Foreign (msg : string).

End errors.
Export errors.

(** ** [k8s.io/apimachinery]: object metadata *)
Module metav1.

Record ObjectMeta := {
  Name : string;
  GenerateName : string;
  Namespace : string;
  ResourceVersion : string;
  Labels : gmap string string
}.

Definition ObjectMeta_zero : ObjectMeta :=
  {| Name := ""; GenerateName := ""; Namespace := "";
     ResourceVersion := ""; Labels := ∅ |}.

End metav1.

(** ** [api/v1beta1]: the APIRule *)
Module gatewayv1beta1.

Record Service := {
  Service_Name : option string;
  Service_Namespace : option string;
  Service_Port : option uint32;
  Service_IsExternal : option bool
}.

(** [Authenticator] and [Mutator] both wrap a [Handler]: a name and an
    optional raw configuration. *)
Record Handler := {
  Handler_Name : string;
  Handler_Config : option string
}.

Record Rule := {
  Rule_Path : string;
  Rule_Service : option Service;
  Rule_Methods : list string;
  Rule_AccessStrategies : list Handler;
  Rule_Mutators : list Handler
}.

Record APIRuleSpec := {
  Spec_Host : option string;
  Spec_Service : option Service;
  Spec_Gateway : option string;
  Spec_Rules : list Rule
}.

Record APIRule := {
  ObjectMeta : metav1.ObjectMeta;
  Spec : APIRuleSpec
}.

Record CookieMutatorConfig := {
  Cookies : gmap string string
}.

Record HeaderMutatorConfig := {
  Headers : gmap string string
}.

(** Methods of [Rule] and of the two mutator configurations; their
    bodies are not part of the sources embedded here. *)
Class MutatorMethods := {
  GetCookieMutator : Rule → CookieMutatorConfig * option error;
  GetHeaderMutator : Rule → HeaderMutatorConfig * option error;
  HasCookies : CookieMutatorConfig → bool;
  ToString : CookieMutatorConfig → string;
  HasHeaders : HeaderMutatorConfig → bool
}.

End gatewayv1beta1.

(** ** [istio.io/client-go]: the VirtualService *)
Module networkingv1beta1.

(** The [oneof] of [StringMatch]. *)
Inductive StringMatch :=
| StringMatch_Exact (s : string)
| StringMatch_Prefix (s : string)
| StringMatch_Regex (s : string).

Record HTTPMatchRequest := {
  Uri : option StringMatch
}.

Record PortSelector := {
  Number : uint32
}.

Record Destination := {
  Destination_Host : string;
  Destination_Port : PortSelector
}.

Record HTTPRouteDestination := {
  Route_Destination : Destination
}.

Record CorsPolicy := {
  Cors_AllowOrigins : list StringMatch;
  Cors_AllowMethods : list string;
  Cors_AllowHeaders : list string
}.

Record HeaderOperations := {
  Set_ : gmap string string;
  Add : gmap string string;
  Remove : list string
}.

Record Headers := {
  Request : option HeaderOperations;
  Response : option HeaderOperations
}.

Record HTTPRoute := {
  HTTPRoute_Match : list HTTPMatchRequest;
  HTTPRoute_Route : list HTTPRouteDestination;
  HTTPRoute_CorsPolicy : option CorsPolicy;
  (** a [durationpb.Duration], in nanoseconds *)
  HTTPRoute_Timeout : option Z;
  HTTPRoute_Headers : option Headers
}.

Record VirtualServiceSpec := {
  Hosts : list string;
  Gateways : list string;
  Http : list HTTPRoute
}.

Record VirtualService := {
  ObjectMeta : metav1.ObjectMeta;
  Spec : VirtualServiceSpec
}.

(** [Items] is a [[]*VirtualService]. *)
Record VirtualServiceList := {
  Items : list (option VirtualService)
}.

End networkingv1beta1.

(** ** [net/http], [crypto/tls], [context]: what the token helper touches *)
Module http.

Record TLSConfig := {
  InsecureSkipVerify : bool
}.

Record Transport := {
  TLSClientConfig : option TLSConfig
}.

(** A cookie jar made by [cookiejar.New]: it stores the options' public
    suffix list (here, whether one was given) and starts empty. *)
Record Jar := {
  psList : bool;
  entries : gmap string (gmap string string)
}.

Record Client := {
  Client_Transport : option Transport;
  (** a [time.Duration], in nanoseconds *)
  Client_Timeout : Z;
  Client_Jar : option Jar
}.

End http.

Module context.

(** The one context key this code uses is [oauth2.HTTPClient]. *)
Inductive key := HTTPClient.

Inductive Context :=
| Background
| WithValue (parent : Context) (k : key) (val : http.Client).

(** [ctx.Value(oauth2.HTTPClient)]: the innermost binding wins. *)
Definition Value (ctx : Context) (k : key) : option http.Client :=
  match ctx with
  | Background => None
  | WithValue _ HTTPClient val => Some val
  end.

End context.

(** ** Package [processing] *)
Module processing.
Import gatewayv1beta1.

Record CorsConfig := {
  AllowOrigins : list networkingv1beta1.StringMatch;
  AllowMethods : list string;
  AllowHeaders : list string
}.

Record ReconciliationConfig := {
  OathkeeperSvc : string;
  OathkeeperSvcPort : uint32;
  CorsConfig_ : option CorsConfig;
  AdditionalLabels : gmap string string;
  DefaultDomainName : string;
  HTTPTimeoutDuration : Z
}.

(** Modelled from the spec: the Object-Change model of package
    [processing] is a tagged result {Create, Update} that carries the
    object to apply. *)
Inductive action := create | update.

Record ObjectChange := {
  Action : action;
  Obj : option networkingv1beta1.VirtualService
}.

Definition NewObjectCreateAction (obj : option networkingv1beta1.VirtualService) : ObjectChange :=
  {| Action := create; Obj := obj |}.

Definition NewObjectUpdateAction (obj : option networkingv1beta1.VirtualService) : ObjectChange :=
  {| Action := update; Obj := obj |}.

(** The functions and constants of package [processing] that the
    embedded sources use; their bodies are elsewhere in the repository. *)
Class Package := {
  FilterDuplicatePaths : list Rule → list Rule;
  IsSecured : Rule → bool;
  IsJwtSecured : Rule → bool;
  OwnerLabel : string;
  OwnerLabelv1alpha1 : string;
  GetOwnerLabels : APIRule → gmap string string
}.

End processing.

(** ** Package [helpers] *)
Module helpers.
Import gatewayv1beta1.

Class Package := {
  FindServiceNamespace : APIRule → Rule → string;
  GetHostLocalDomain : string → string → string;
  GetHostWithDomain : string → string → string
}.

End helpers.

(** ** Package [builders]

    Every builder is a handle on one object that its methods update in
    place (the sources call them as statements and drop the returned
    handle).  The model threads the state of that object: a method is a
    function from the old state to the new one. *)
Module builders.
Import networkingv1beta1.

(** Modelled from the spec: the builders of package [builders] are not
    among the embedded sources.  Following the output schema
    [RoutingObject{metadata{generateName, namespace, labels},
    spec{hosts, gateways, http:[{match:[{uri}], route:[{destination:
    {host,port}}], corsPolicy, timeout, headers}]}}], each method stores
    its argument in the field of that name; list-valued fields grow at
    the end. *)
Definition VirtualService : networkingv1beta1.VirtualService :=
  {| ObjectMeta := metav1.ObjectMeta_zero;
     Spec := {| Hosts := []; Gateways := []; Http := [] |} |}.

Definition with_meta (f : metav1.ObjectMeta → metav1.ObjectMeta)
    (vs : networkingv1beta1.VirtualService) : networkingv1beta1.VirtualService :=
  {| ObjectMeta := f (ObjectMeta vs); Spec := Spec vs |}.

(** Modelled from the spec: [GenerateName] asks for a generated name,
    so the object's own name is empty (to be assigned on write). *)
Definition GenerateName (val : string) :=
  with_meta (λ m,
    {| metav1.Name := "";
       metav1.GenerateName := val;
       metav1.Namespace := metav1.Namespace m;
       metav1.ResourceVersion := metav1.ResourceVersion m;
       metav1.Labels := metav1.Labels m |}).

Definition Namespace (val : string) :=
  with_meta (λ m,
    {| metav1.Name := metav1.Name m;
       metav1.GenerateName := metav1.GenerateName m;
       metav1.Namespace := val;
       metav1.ResourceVersion := metav1.ResourceVersion m;
       metav1.Labels := metav1.Labels m |}).

Definition Label (key val : string) :=
  with_meta (λ m,
    {| metav1.Name := metav1.Name m;
       metav1.GenerateName := metav1.GenerateName m;
       metav1.Namespace := metav1.Namespace m;
       metav1.ResourceVersion := metav1.ResourceVersion m;
       metav1.Labels := <[key := val]> (metav1.Labels m) |}).

Definition Spec (val : VirtualServiceSpec)
    (vs : networkingv1beta1.VirtualService) : networkingv1beta1.VirtualService :=
  {| ObjectMeta := ObjectMeta vs; networkingv1beta1.Spec := val |}.

Definition VirtualServiceSpec : networkingv1beta1.VirtualServiceSpec :=
  {| Hosts := []; Gateways := []; Http := [] |}.

Definition Host (val : string) (s : networkingv1beta1.VirtualServiceSpec) :=
  {| Hosts := Hosts s ++ [val]; Gateways := Gateways s; Http := Http s |}.

Definition Gateway (val : string) (s : networkingv1beta1.VirtualServiceSpec) :=
  {| Hosts := Hosts s; Gateways := Gateways s ++ [val]; Http := Http s |}.

Definition HTTP (hr : networkingv1beta1.HTTPRoute) (s : networkingv1beta1.VirtualServiceSpec) :=
  {| Hosts := Hosts s; Gateways := Gateways s; Http := Http s ++ [hr] |}.

Definition HTTPRoute : networkingv1beta1.HTTPRoute :=
  {| HTTPRoute_Match := []; HTTPRoute_Route := [];
     HTTPRoute_CorsPolicy := None; HTTPRoute_Timeout := None;
     HTTPRoute_Headers := None |}.

Definition Route (rd : HTTPRouteDestination) (hr : networkingv1beta1.HTTPRoute) :=
  {| HTTPRoute_Match := HTTPRoute_Match hr;
     HTTPRoute_Route := HTTPRoute_Route hr ++ [rd];
     HTTPRoute_CorsPolicy := HTTPRoute_CorsPolicy hr;
     HTTPRoute_Timeout := HTTPRoute_Timeout hr;
     HTTPRoute_Headers := HTTPRoute_Headers hr |}.

Definition Match (mr : HTTPMatchRequest) (hr : networkingv1beta1.HTTPRoute) :=
  {| HTTPRoute_Match := HTTPRoute_Match hr ++ [mr];
     HTTPRoute_Route := HTTPRoute_Route hr;
     HTTPRoute_CorsPolicy := HTTPRoute_CorsPolicy hr;
     HTTPRoute_Timeout := HTTPRoute_Timeout hr;
     HTTPRoute_Headers := HTTPRoute_Headers hr |}.

Definition CorsPolicy_ (cp : networkingv1beta1.CorsPolicy) (hr : networkingv1beta1.HTTPRoute) :=
  {| HTTPRoute_Match := HTTPRoute_Match hr;
     HTTPRoute_Route := HTTPRoute_Route hr;
     HTTPRoute_CorsPolicy := Some cp;
     HTTPRoute_Timeout := HTTPRoute_Timeout hr;
     HTTPRoute_Headers := HTTPRoute_Headers hr |}.

(** [value] is a [time.Duration]; the route stores it as a protobuf
    duration of the same number of nanoseconds. *)
Definition Timeout_ (value : Z) (hr : networkingv1beta1.HTTPRoute) :=
  {| HTTPRoute_Match := HTTPRoute_Match hr;
     HTTPRoute_Route := HTTPRoute_Route hr;
     HTTPRoute_CorsPolicy := HTTPRoute_CorsPolicy hr;
     HTTPRoute_Timeout := Some value;
     HTTPRoute_Headers := HTTPRoute_Headers hr |}.

Definition Headers_ (h : option networkingv1beta1.Headers) (hr : networkingv1beta1.HTTPRoute) :=
  {| HTTPRoute_Match := HTTPRoute_Match hr;
     HTTPRoute_Route := HTTPRoute_Route hr;
     HTTPRoute_CorsPolicy := HTTPRoute_CorsPolicy hr;
     HTTPRoute_Timeout := HTTPRoute_Timeout hr;
     HTTPRoute_Headers := h |}.

(** [RouteDestination().Host(host).Port(port)] *)
Definition RouteDestination : HTTPRouteDestination :=
  {| Route_Destination :=
       {| Destination_Host := ""; Destination_Port := {| Number := 0 |} |} |}.

Definition RouteDestination_Host (val : string) (rd : HTTPRouteDestination) :=
  {| Route_Destination :=
       {| Destination_Host := val;
          Destination_Port := Destination_Port (Route_Destination rd) |} |}.

Definition RouteDestination_Port (val : uint32) (rd : HTTPRouteDestination) :=
  {| Route_Destination :=
       {| Destination_Host := Destination_Host (Route_Destination rd);
          Destination_Port := {| Number := val |} |} |}.

(** [MatchRequest().Uri().Prefix(val)] and [MatchRequest().Uri().Regex(val)] *)
Definition MatchRequest : HTTPMatchRequest := {| Uri := None |}.

Definition Uri_Prefix (val : string) (mr : HTTPMatchRequest) : HTTPMatchRequest :=
  {| Uri := Some (StringMatch_Prefix val) |}.

Definition Uri_Regex (val : string) (mr : HTTPMatchRequest) : HTTPMatchRequest :=
  {| Uri := Some (StringMatch_Regex val) |}.

(** [CorsPolicy().AllowOrigins(o...).AllowMethods(m...).AllowHeaders(h...)] *)
Definition CorsPolicy : networkingv1beta1.CorsPolicy :=
  {| Cors_AllowOrigins := []; Cors_AllowMethods := []; Cors_AllowHeaders := [] |}.

Definition AllowOrigins (val : list StringMatch) (cp : networkingv1beta1.CorsPolicy) :=
  {| Cors_AllowOrigins := Cors_AllowOrigins cp ++ val;
     Cors_AllowMethods := Cors_AllowMethods cp;
     Cors_AllowHeaders := Cors_AllowHeaders cp |}.

Definition AllowMethods (val : list string) (cp : networkingv1beta1.CorsPolicy) :=
  {| Cors_AllowOrigins := Cors_AllowOrigins cp;
     Cors_AllowMethods := Cors_AllowMethods cp ++ val;
     Cors_AllowHeaders := Cors_AllowHeaders cp |}.

Definition AllowHeaders (val : list string) (cp : networkingv1beta1.CorsPolicy) :=
  {| Cors_AllowOrigins := Cors_AllowOrigins cp;
     Cors_AllowMethods := Cors_AllowMethods cp;
     Cors_AllowHeaders := Cors_AllowHeaders cp ++ val |}.

(** The request-header builder.  The spec fixes that a route has a
    [headers] object but not how the host rewrite, the cookies and the
    headers are laid out in it, so its methods stay abstract:
    [HttpRouteHeadersBuilder] is the state of the [Headers] object under
    construction. *)
Class HeadersBuilder := {
  HttpRouteHeadersBuilder : Type;
  NewHttpRouteHeadersBuilder : HttpRouteHeadersBuilder;
  SetHostHeader : string → HttpRouteHeadersBuilder → HttpRouteHeadersBuilder;
  SetRequestCookies : string → HttpRouteHeadersBuilder → HttpRouteHeadersBuilder;
  SetRequestHeaders : gmap string string → HttpRouteHeadersBuilder → HttpRouteHeadersBuilder;
  Get : HttpRouteHeadersBuilder → option networkingv1beta1.Headers
}.

End builders.

(** ** [sigs.k8s.io/controller-runtime]: the cluster client *)
Module ctrlclient.

(** [List(ctx, &list, MatchingLabels(labels))] fills [list] and returns
    an error; on an error the content of [list] is whatever the client
    left there. *)
Record Client := {
  List : context.Context → gmap string string →
         networkingv1beta1.VirtualServiceList * option error
}.

End ctrlclient.

(** ** Package [processors]: the generic reconciliation processor *)
Module processors.
Import gatewayv1beta1 networkingv1beta1 processing.

(** The interface [VirtualServiceCreator]: its method set. *)
Record VirtualServiceCreator := {
  Create : gatewayv1beta1.APIRule →
           exec (option networkingv1beta1.VirtualService * option error)
}.

Record VirtualServiceProcessor := {
  Creator : VirtualServiceCreator
}.

Section processor.
Context `{!processing.Package}.

Definition getDesiredState (r : VirtualServiceProcessor) (api : gatewayv1beta1.APIRule)
    : exec (option networkingv1beta1.VirtualService * option error) :=
  Create (Creator r) api.

Definition getActualState (r : VirtualServiceProcessor) (ctx : context.Context)
    (client : ctrlclient.Client) (api : gatewayv1beta1.APIRule)
    : option networkingv1beta1.VirtualService * option error :=
  let labels := GetOwnerLabels api in
  let '(vsList, err) := ctrlclient.List client ctx labels in
  match err with
  | Some err => (None, Some err)
  | None =>
      if (1 <=? length (Items vsList))%nat
      then (mjoin (Items vsList !! 0%nat), None)
      else (None, None)
  end.

(** [actualVs.Spec = *desiredVs.Spec.DeepCopy()] overwrites the Spec of
    the object [actualVs] points to and leaves its metadata alone. *)
Definition getObjectChanges (r : VirtualServiceProcessor)
    (desiredVs actualVs : option networkingv1beta1.VirtualService)
    : exec ObjectChange :=
  match actualVs with
  | Some actual =>
      desired <- deref desiredVs;
      let actual' :=
        {| networkingv1beta1.ObjectMeta := networkingv1beta1.ObjectMeta actual;
           networkingv1beta1.Spec := networkingv1beta1.Spec desired |} in
      Done (NewObjectUpdateAction (Some actual'))
  | None => Done (NewObjectCreateAction desiredVs)
  end.

Definition EvaluateReconciliation (r : VirtualServiceProcessor) (ctx : context.Context)
    (client : ctrlclient.Client) (apiRule : gatewayv1beta1.APIRule)
    : exec (list ObjectChange * option error) :=
  '(desired, err) <- getDesiredState r apiRule;
  match err with
  | Some err => Done ([], Some err)
  | None =>
      let '(actual, err) := getActualState r ctx client apiRule in
      match err with
      | Some err => Done ([], Some err)
      | None =>
          changes <- getObjectChanges r desired actual;
          Done ([changes], None)
      end
  end.

End processor.

End processors.

(** ** Package [istio]: the desired VirtualService of the Istio handler *)
Module istio.
Import gatewayv1beta1 networkingv1beta1 processing helpers builders.

Record virtualServiceCreator := {
  oathkeeperSvc : string;
  oathkeeperSvcPort : uint32;
  corsConfig : option processing.CorsConfig;
  defaultDomainName : string;
  additionalLabels : gmap string string;
  httpTimeoutDuration : Z
}.

(** [time.Second], in nanoseconds *)
Definition time_Second : Z := 1000000000.

Section creator.
Context `{!processing.Package, !helpers.Package,
          !gatewayv1beta1.MutatorMethods, !builders.HeadersBuilder}.

(** One round of the loop over [filteredRules] in [Create], up to its
    last statement: the round builds the route of [rule] in
    [httpRouteBuilder] ([inl]), or leaves [Create] with an error
    ([inr]). *)
Definition Create_route (r : virtualServiceCreator) (api : gatewayv1beta1.APIRule)
    (rule : Rule) : exec (networkingv1beta1.HTTPRoute + error) :=
  let httpRouteBuilder := builders.HTTPRoute in
  let serviceNamespace := FindServiceNamespace api rule in
  let routeDirectlyToService := false in
  let routeDirectlyToService :=
    if negb (IsSecured rule) then true
    else if IsJwtSecured rule then true
    else routeDirectlyToService in
  '(host, port) <-
    (if routeDirectlyToService then
       match Rule_Service rule with
       | Some ruleService =>
           name <- deref (Service_Name ruleService);
           port <- deref (Service_Port ruleService);
           Done (GetHostLocalDomain name serviceNamespace, port)
       | None =>
           apiService <- deref (Spec_Service (gatewayv1beta1.Spec api));
           name <- deref (Service_Name apiService);
           port <- deref (Service_Port apiService);
           Done (GetHostLocalDomain name serviceNamespace, port)
       end
     else Done (oathkeeperSvc r, oathkeeperSvcPort r)) : exec (string * uint32);
  let httpRouteBuilder :=
    builders.Route
      (RouteDestination_Port port (RouteDestination_Host host RouteDestination))
      httpRouteBuilder in
  let httpRouteBuilder :=
    if String.eqb (Rule_Path rule) "/*"
    then builders.Match (Uri_Prefix "/" MatchRequest) httpRouteBuilder
    else builders.Match (Uri_Regex (Rule_Path rule) MatchRequest) httpRouteBuilder in
  cors <- deref (corsConfig r);
  let httpRouteBuilder :=
    builders.CorsPolicy_
      (builders.AllowHeaders (processing.AllowHeaders cors)
         (builders.AllowMethods (processing.AllowMethods cors)
            (builders.AllowOrigins (processing.AllowOrigins cors) builders.CorsPolicy)))
      httpRouteBuilder in
  let httpRouteBuilder :=
    builders.Timeout_ (wrap64 (time_Second * wrap64 (httpTimeoutDuration r)))
      httpRouteBuilder in
  apiHost <- deref (Spec_Host (gatewayv1beta1.Spec api));
  let headersBuilder :=
    SetHostHeader (GetHostWithDomain apiHost (defaultDomainName r))
      NewHttpRouteHeadersBuilder in
  headers <-
    (if IsJwtSecured rule then
       let '(cookieMutator, err) := GetCookieMutator rule in
       match err with
       | Some err => Done (inr err)
       | None =>
           let headersBuilder :=
             if HasCookies cookieMutator
             then SetRequestCookies (ToString cookieMutator) headersBuilder
             else headersBuilder in
           let '(headerMutator, err) := GetHeaderMutator rule in
           match err with
           | Some err => Done (inr err)
           | None =>
               let headersBuilder :=
                 if HasHeaders headerMutator
                 then SetRequestHeaders (gatewayv1beta1.Headers headerMutator) headersBuilder
                 else headersBuilder in
               Done (inl headersBuilder)
           end
       end
     else Done (inl headersBuilder)) : exec (HttpRouteHeadersBuilder + error);
  match headers with
  | inr err => Done (inr err)
  | inl headersBuilder =>
      let httpRouteBuilder := builders.Headers_ (Get headersBuilder) httpRouteBuilder in
      Done (inl httpRouteBuilder)
  end.

(** [for _, rule := range filteredRules { ...; vsSpecBuilder.HTTP(httpRouteBuilder) }] *)
Fixpoint Create_loop (r : virtualServiceCreator) (api : gatewayv1beta1.APIRule)
    (filteredRules : list Rule) (vsSpecBuilder : networkingv1beta1.VirtualServiceSpec)
    : exec (networkingv1beta1.VirtualServiceSpec + error) :=
  match filteredRules with
  | [] => Done (inl vsSpecBuilder)
  | rule :: rest =>
      res <- Create_route r api rule;
      match res with
      | inr err => Done (inr err)
      | inl httpRouteBuilder =>
          Create_loop r api rest (builders.HTTP httpRouteBuilder vsSpecBuilder)
      end
  end.

(** [Create] returns the Virtual Service using the configuration of
    the APIRule. *)
Definition Create (r : virtualServiceCreator) (api : gatewayv1beta1.APIRule)
    : exec (option networkingv1beta1.VirtualService * option error) :=
  let virtualServiceNamePrefix :=
    metav1.Name (gatewayv1beta1.ObjectMeta api) +:+ "-" in
  let vsSpecBuilder := builders.VirtualServiceSpec in
  apiHost <- deref (Spec_Host (gatewayv1beta1.Spec api));
  let vsSpecBuilder :=
    builders.Host (GetHostWithDomain apiHost (defaultDomainName r)) vsSpecBuilder in
  apiGateway <- deref (Spec_Gateway (gatewayv1beta1.Spec api));
  let vsSpecBuilder := builders.Gateway apiGateway vsSpecBuilder in
  let filteredRules := FilterDuplicatePaths (Spec_Rules (gatewayv1beta1.Spec api)) in
  res <- Create_loop r api filteredRules vsSpecBuilder;
  match res with
  | inr err => Done (None, Some err)
  | inl vsSpecBuilder =>
      let owner :=
        metav1.Name (gatewayv1beta1.ObjectMeta api) +:+ "." +:+
        metav1.Namespace (gatewayv1beta1.ObjectMeta api) in
      let vsBuilder :=
        builders.Label OwnerLabelv1alpha1 owner
          (builders.Label OwnerLabel owner
             (builders.Namespace (metav1.Namespace (gatewayv1beta1.ObjectMeta api))
                (builders.GenerateName virtualServiceNamePrefix
                   builders.VirtualService))) in
      let vsBuilder :=
        map_fold (λ k v vsBuilder, builders.Label k v vsBuilder)
          vsBuilder (additionalLabels r) in
      let vsBuilder := builders.Spec vsSpecBuilder vsBuilder in
      Done (Some vsBuilder, None)
  end.

(** [NewVirtualServiceProcessor] returns a [VirtualServiceProcessor]
    with the desired state handling specific for the Istio handler. *)
Definition NewVirtualServiceProcessor (config : processing.ReconciliationConfig)
    : processors.VirtualServiceProcessor :=
  {| processors.Creator :=
       {| processors.Create :=
            Create
              {| oathkeeperSvc := OathkeeperSvc config;
                 oathkeeperSvcPort := OathkeeperSvcPort config;
                 corsConfig := CorsConfig_ config;
                 additionalLabels := AdditionalLabels config;
                 defaultDomainName := DefaultDomainName config;
                 httpTimeoutDuration := HTTPTimeoutDuration config |} |} |}.

End creator.

End istio.

(** ** [golang.org/x/oauth2/clientcredentials] and [net/http/cookiejar] *)
Module clientcredentials.

Record Config := {
  ClientID : string;
  ClientSecret : string;
  TokenURL : string;
  Scopes : list string;
  (** a [url.Values] *)
  EndpointParams : gmap string (list string)
}.

End clientcredentials.

Module url.

(** [make(url.Values)] *)
Definition make_Values : gmap string (list string) := ∅.

(** [v.Add(key, value)] appends [value] to the values of [key]. *)
Definition Add (key value : string) (v : gmap string (list string))
    : gmap string (list string) :=
  <[key := (default [] (v !! key) ++ [value])%list]> v.

End url.

Module cookiejar.

Record Options := {
  PublicSuffixList : bool
}.

(** [cookiejar.New] keeps the public suffix list of its options in an
    empty jar; the error it returns is always nil. *)
Definition New (o : option Options) : option http.Jar * option error :=
  (Some {| http.psList := from_option PublicSuffixList false o;
           http.entries := ∅ |},
   None).

End cookiejar.

(** ** Package [jwt]: the client-credentials token helper *)
Module jwt.
Import oauth2 clientcredentials http context.

(** The part of the package's [Config] that [GetAccessToken] reads. *)
Record ClientConfig := {
  ClientTimeout : Z
}.

Record Config := {
  ClientConfig_ : ClientConfig
}.

(** What lies outside the process: the token endpoint behind
    [oauth2Cfg.Token(ctx)], which sees the configuration and the context
    (and with it the HTTP client to use), and the clock, which decides
    whether a token has expired. *)
Class World := {
  Token_ : clientcredentials.Config → Context → option Token * option error;
  expired : Token → bool
}.

Section helper.
Context {world : World}.

(** [token.Valid()]: a nil token, one without access token and an
    expired one are invalid. *)
Definition Valid (t : option Token) : bool :=
  match t with
  | None => false
  | Some t => negb (String.eqb (AccessToken t) "") && negb (expired t)
  end.

Definition GetAccessToken (oauth2Cfg : clientcredentials.Config)
    (config : option Config) (tokenType : list string)
    : exec (string * option error) :=
  let '(jar, err) :=
    cookiejar.New (Some {| cookiejar.PublicSuffixList := true |}) in
  match err with
  | Some err => Done ("", Some err)
  | None =>
      config <- deref config;
      let httpClient :=
        {| Client_Transport :=
             Some {| TLSClientConfig := Some {| InsecureSkipVerify := true |} |};
           Client_Timeout := ClientTimeout (ClientConfig_ config);
           Client_Jar := jar |} in
      let oauth2Cfg :=
        match tokenType with
        | tokenType0 :: _ =>
            {| ClientID := ClientID oauth2Cfg;
               ClientSecret := ClientSecret oauth2Cfg;
               TokenURL := TokenURL oauth2Cfg;
               Scopes := Scopes oauth2Cfg;
               EndpointParams := url.Add "token_format" tokenType0 url.make_Values |}
        | [] => oauth2Cfg
        end in
      let ctx := WithValue Background HTTPClient httpClient in
      let '(token, err) := Token_ oauth2Cfg ctx in
      match err with
      | Some err => Done ("", Some err)
      | None =>
          if negb (Valid token)
          then Done ("", Some (Errorf "token invalid. got: %#v" [ArgToken token]))
          else
            token <- deref token;
            if negb (String.eqb (TokenType token) "Bearer")
            then Done ("", Some (Errorf "token type = %q; want %q"
                                   [ArgString (TokenType token); ArgString "Bearer"]))
            else Done (AccessToken token, None)
      end
  end.

End helper.

End jwt.

(** ** Collaborators to run the model on concrete inputs

    One implementation of each type class above, so that the functions of
    the model can be evaluated.  The theorems below do not depend on it:
    they quantify over every implementation. *)
Module fixtures.
Import gatewayv1beta1 networkingv1beta1.

Definition owner (api : APIRule) : string :=
  metav1.Name (gatewayv1beta1.ObjectMeta api) +:+ "." +:+
  metav1.Namespace (gatewayv1beta1.ObjectMeta api).

Definition has_handler (name : string) (hs : list Handler) : bool :=
  existsb (λ h, String.eqb (Handler_Name h) name) hs.

(** Modelled from the spec: duplicate-path filtering keeps one rule per
    path (the first), in the order of the APIRule. *)
Fixpoint filter_paths (seen : list string) (rules : list Rule) : list Rule :=
  match rules with
  | [] => []
  | rule :: rest =>
      if existsb (String.eqb (Rule_Path rule)) seen
      then filter_paths seen rest
      else rule :: filter_paths (Rule_Path rule :: seen) rest
  end.

(** Modelled from the spec: an access strategy is open ("allow"),
    JWT-validated ("jwt") or proxy-mediated (any other); the two
    ownership label keys are the current and the legacy one. *)
#[export] Instance processing_pkg : processing.Package := {|
  processing.FilterDuplicatePaths := filter_paths [];
  processing.IsSecured rule :=
    existsb (λ h, negb (String.eqb (Handler_Name h) "allow")) (Rule_AccessStrategies rule);
  processing.IsJwtSecured rule := has_handler "jwt" (Rule_AccessStrategies rule);
  processing.OwnerLabel := "apirule.gateway.kyma-project.io/v1beta1";
  processing.OwnerLabelv1alpha1 := "apirule.gateway.kyma-project.io/v1alpha1";
  processing.GetOwnerLabels api :=
    <["apirule.gateway.kyma-project.io/v1alpha1" := owner api]>
      (<["apirule.gateway.kyma-project.io/v1beta1" := owner api]> ∅)
|}.

Fixpoint has_dot (s : string) : bool :=
  match s with
  | EmptyString => false
  | String c rest => if Ascii.eqb c "."%char then true else has_dot rest
  end.

#[export] Instance helpers_pkg : helpers.Package := {|
  helpers.FindServiceNamespace api rule :=
    match Rule_Service rule ≫= Service_Namespace with
    | Some ns => ns
    | None =>
        match Spec_Service (gatewayv1beta1.Spec api) ≫= Service_Namespace with
        | Some ns => ns
        | None => metav1.Namespace (gatewayv1beta1.ObjectMeta api)
        end
    end;
  helpers.GetHostLocalDomain name ns := name +:+ "." +:+ ns +:+ ".svc.cluster.local";
  helpers.GetHostWithDomain host domain :=
    if has_dot host then host else host +:+ "." +:+ domain
|}.

(** A mutator definition is a handler named "cookie" or "header"; one
    without configuration is malformed, one with configuration [c]
    declares the single entry [c ↦ c], and the empty configuration
    declares nothing. *)
Definition find_mutator (name : string) (rule : Rule) : option Handler :=
  List.find (λ h, String.eqb (Handler_Name h) name) (Rule_Mutators rule).

Definition parse_mutator (name : string) (rule : Rule)
    : gmap string string * option error :=
  match find_mutator name rule with
  | None => (∅, None)
  | Some h =>
      match Handler_Config h with
      | None => (∅, Some (Foreign ("malformed " +:+ name +:+ " mutator")))
      | Some c => (if String.eqb c "" then ∅ else {[ c := c ]}, None)
      end
  end.

#[export] Instance mutator_methods : MutatorMethods := {|
  GetCookieMutator rule :=
    ({| Cookies := (parse_mutator "cookie" rule).1 |}, (parse_mutator "cookie" rule).2);
  GetHeaderMutator rule :=
    ({| gatewayv1beta1.Headers := (parse_mutator "header" rule).1 |},
     (parse_mutator "header" rule).2);
  HasCookies c := negb (bool_decide (Cookies c = ∅));
  ToString c := map_fold (λ k v acc, k +:+ "=" +:+ v +:+ "; " +:+ acc) "" (Cookies c);
  HasHeaders h := negb (bool_decide (gatewayv1beta1.Headers h = ∅))
|}.

(** The builder state is the [set] map of the request header
    operations. *)
#[export] Instance headers_builder : builders.HeadersBuilder := {|
  builders.HttpRouteHeadersBuilder := gmap string string;
  builders.NewHttpRouteHeadersBuilder := ∅;
  builders.SetHostHeader hostname b := <["x-forwarded-host" := hostname]> b;
  builders.SetRequestCookies cookies b := <["Cookie" := cookies]> b;
  builders.SetRequestHeaders headers b := headers ∪ b;
  builders.Get b :=
    Some {| Request := Some {| Set_ := b; Add := ∅; Remove := [] |};
            Response := None |}
|}.

(** A cluster that answers every lookup with [items]. *)
Definition cluster (items : list (option VirtualService)) : ctrlclient.Client :=
  {| ctrlclient.List := λ _ _, ({| Items := items |}, None) |}.

(** A cluster whose lookups fail. *)
Definition broken_cluster (err : error) : ctrlclient.Client :=
  {| ctrlclient.List := λ _ _, ({| Items := [] |}, Some err) |}.

(** A token endpoint that answers [response] whatever it is asked, and
    a clock before every expiry. *)
Definition endpoint (response : option oauth2.Token * option error) : jwt.World :=
  {| jwt.Token_ := λ _ _, response; jwt.expired := λ _, false |}.

Definition svc (name : string) (port : Z) : Service :=
  {| Service_Name := Some name; Service_Namespace := None;
     Service_Port := Some port; Service_IsExternal := None |}.

Definition rule (path : string) (service : option Service)
    (strategies : list string) (mutators : list Handler) : Rule :=
  {| Rule_Path := path; Rule_Service := service; Rule_Methods := ["GET"];
     Rule_AccessStrategies :=
       (λ n, {| Handler_Name := n; Handler_Config := None |}) <$> strategies;
     Rule_Mutators := mutators |}.

Definition apirule (rules : list Rule) : APIRule :=
  {| gatewayv1beta1.ObjectMeta :=
       {| metav1.Name := "orders"; metav1.GenerateName := "";
          metav1.Namespace := "shop"; metav1.ResourceVersion := "7";
          metav1.Labels := ∅ |};
     gatewayv1beta1.Spec :=
       {| Spec_Host := Some "foo.example";
          Spec_Service := Some (svc "svc" 80);
          Spec_Gateway := Some "ns/gw";
          Spec_Rules := rules |} |}.

Definition creator (extra : gmap string string) : istio.virtualServiceCreator :=
  {| istio.oathkeeperSvc := "oathkeeper.kyma-system.svc.cluster.local";
     istio.oathkeeperSvcPort := 4455;
     istio.corsConfig :=
       Some {| processing.AllowOrigins := [StringMatch_Regex ".*"];
               processing.AllowMethods := ["GET"; "POST"];
               processing.AllowHeaders := ["Authorization"] |};
     istio.defaultDomainName := "kyma.local";
     istio.additionalLabels := extra;
     istio.httpTimeoutDuration := 180 |}.

Definition config (extra : gmap string string) : processing.ReconciliationConfig :=
  {| processing.OathkeeperSvc := "oathkeeper.kyma-system.svc.cluster.local";
     processing.OathkeeperSvcPort := 4455;
     processing.CorsConfig_ :=
       Some {| processing.AllowOrigins := [StringMatch_Regex ".*"];
               processing.AllowMethods := ["GET"; "POST"];
               processing.AllowHeaders := ["Authorization"] |};
     processing.AdditionalLabels := extra;
     processing.DefaultDomainName := "kyma.local";
     processing.HTTPTimeoutDuration := 180 |}.

Definition existing : VirtualService :=
  {| networkingv1beta1.ObjectMeta :=
       {| metav1.Name := "orders-x7k2p"; metav1.GenerateName := "orders-";
          metav1.Namespace := "shop"; metav1.ResourceVersion := "4711";
          metav1.Labels := ∅ |};
     networkingv1beta1.Spec := {| Hosts := ["old.example"]; Gateways := []; Http := [] |} |}.

Definition cookie_mutator (config : option string) : Handler :=
  {| Handler_Name := "cookie"; Handler_Config := config |}.

(** Three rules: an open one on the wildcard path, a proxy-mediated one,
    and a JWT-validated one with its own service and a cookie. *)
Definition open_rule : Rule := rule "/*" None ["allow"] [].
Definition proxied_rule : Rule := rule "/orders" None ["oauth2_introspection"] [].
Definition jwt_rule : Rule :=
  rule "/billing" (Some (svc "billing" 8080)) ["jwt"] [cookie_mutator (Some "session")].

(** A JWT-validated rule whose cookie mutator is malformed. *)
Definition broken_rule : Rule := rule "/broken" None ["jwt"] [cookie_mutator None].

Definition sample_api : APIRule := apirule [open_rule; proxied_rule; jwt_rule].

Definition oauth2Cfg : clientcredentials.Config :=
  {| clientcredentials.ClientID := "client";
     clientcredentials.ClientSecret := "secret";
     clientcredentials.TokenURL := "https://auth.example/oauth2/token";
     clientcredentials.Scopes := ["read"];
     clientcredentials.EndpointParams := ∅ |}.

Definition jwt_config : jwt.Config :=
  {| jwt.ClientConfig_ := {| jwt.ClientTimeout := 10000000000 |} |}.

Definition bearer : oauth2.Token :=
  {| oauth2.AccessToken := "eyJhbGciOi"; oauth2.TokenType := "Bearer";
     oauth2.RefreshToken := ""; oauth2.Expiry := None |}.

End fixtures.

(** * Vocabulary of the properties *)
Module vocabulary.
Import gatewayv1beta1 networkingv1beta1 processing helpers builders istio.

Section desired_state.
Context `{!processing.Package, !helpers.Package,
          !gatewayv1beta1.MutatorMethods, !builders.HeadersBuilder}.

(** The rules of an APIRule that survive duplicate-path filtering. *)
Definition surviving_rules (api : APIRule) : list Rule :=
  FilterDuplicatePaths (Spec_Rules (gatewayv1beta1.Spec api)).

(** The backend service of a rule: the rule's own service when it has
    one, otherwise the default service of the APIRule. *)
Definition backend_service (api : APIRule) (rule : Rule) : option Service :=
  match Rule_Service rule with
  | Some service => Some service
  | None => Spec_Service (gatewayv1beta1.Spec api)
  end.

(** A route destination with the given host and port. *)
Definition destination (host : string) (port : uint32) : HTTPRouteDestination :=
  {| Route_Destination :=
       {| Destination_Host := host; Destination_Port := {| Number := port |} |} |}.

(** A request match on the URI alone. *)
Definition uri_match (m : StringMatch) : HTTPMatchRequest := {| Uri := Some m |}.

(** The error, if any, of constructing the cookie and header mutators
    of a rule; construction is only attempted for a JWT-validated
    rule, the cookie mutator first. *)
Definition mutator_failure (rule : Rule) : option error :=
  if IsJwtSecured rule then
    match (GetCookieMutator rule).2 with
    | Some err => Some err
    | None => (GetHeaderMutator rule).2
    end
  else None.

(** The request headers of a route that rewrites the host to [host]
    and carries the cookie mutation when [cookies] and the header
    mutation when [headers]. *)
Definition request_headers (host : string) (rule : Rule) (cookies headers : bool)
    : option Headers :=
  let b := SetHostHeader host NewHttpRouteHeadersBuilder in
  let b := if cookies
           then SetRequestCookies (ToString (GetCookieMutator rule).1) b else b in
  let b := if headers
           then SetRequestHeaders (gatewayv1beta1.Headers (GetHeaderMutator rule).1) b
           else b in
  Get b.

(** The value of both ownership labels. *)
Definition owner_of (api : APIRule) : string :=
  metav1.Name (gatewayv1beta1.ObjectMeta api) +:+ "." +:+
  metav1.Namespace (gatewayv1beta1.ObjectMeta api).

(** The object carries both ownership labels with the owner's value,
    every additional label of the creator, and the APIRule's
    namespace. *)
Definition ownership_labelled (r : virtualServiceCreator) (api : APIRule)
    (vs : networkingv1beta1.VirtualService) : Prop :=
  let labels := metav1.Labels (networkingv1beta1.ObjectMeta vs) in
  labels !! OwnerLabel = Some (owner_of api) ∧
  labels !! OwnerLabelv1alpha1 = Some (owner_of api) ∧
  (∀ k v, additionalLabels r !! k = Some v → labels !! k = Some v) ∧
  metav1.Namespace (networkingv1beta1.ObjectMeta vs) =
    metav1.Namespace (gatewayv1beta1.ObjectMeta api).

(** An APIRule and a creator on which [Create] dereferences no nil
    pointer: host and gateway are set, and if a rule survives, the
    CORS configuration is set and every surviving rule that routes to
    its backend has a backend service with a name and a port. *)
Definition service_complete (service : option Service) : Prop :=
  ∃ s name port, service = Some s ∧ Service_Name s = Some name
                 ∧ Service_Port s = Some port.

Definition well_formed (r : virtualServiceCreator) (api : APIRule) : Prop :=
  is_Some (Spec_Host (gatewayv1beta1.Spec api)) ∧
  is_Some (Spec_Gateway (gatewayv1beta1.Spec api)) ∧
  Forall (λ rule,
            is_Some (corsConfig r) ∧
            (negb (IsSecured rule) || IsJwtSecured rule = true →
             service_complete (backend_service api rule)))
         (surviving_rules api).

End desired_state.

(** The identity of a cluster object: its name, its namespace and its
    resource version (the token of optimistic concurrency). *)
Definition same_identity (a b : networkingv1beta1.VirtualService) : Prop :=
  metav1.Name (networkingv1beta1.ObjectMeta a) =
    metav1.Name (networkingv1beta1.ObjectMeta b) ∧
  metav1.Namespace (networkingv1beta1.ObjectMeta a) =
    metav1.Namespace (networkingv1beta1.ObjectMeta b) ∧
  metav1.ResourceVersion (networkingv1beta1.ObjectMeta a) =
    metav1.ResourceVersion (networkingv1beta1.ObjectMeta b).

(** Whether an HTTP client accepts any server certificate. *)
Definition skips_verification (c : http.Client) : bool :=
  match http.Client_Transport c with
  | Some transport =>
      match http.TLSClientConfig transport with
      | Some tls => http.InsecureSkipVerify tls
      | None => false
      end
  | None => false
  end.

(** The configuration of the token request: the caller's, with the
    endpoint parameters replaced by the token format when one is given. *)
Definition request_config (oauth2Cfg : clientcredentials.Config)
    (tokenType : list string) : clientcredentials.Config :=
  match tokenType with
  | format :: _ =>
      {| clientcredentials.ClientID := clientcredentials.ClientID oauth2Cfg;
         clientcredentials.ClientSecret := clientcredentials.ClientSecret oauth2Cfg;
         clientcredentials.TokenURL := clientcredentials.TokenURL oauth2Cfg;
         clientcredentials.Scopes := clientcredentials.Scopes oauth2Cfg;
         clientcredentials.EndpointParams := {[ "token_format" := [format] ]} |}
  | [] => oauth2Cfg
  end.

(** The context of the token request: it carries an HTTP client with the
    timeout of the configuration, a fresh cookie jar and a transport
    that does not verify certificates. *)
Definition request_context (config : jwt.Config) : context.Context :=
  context.WithValue context.Background context.HTTPClient
    {| http.Client_Transport :=
         Some {| http.TLSClientConfig := Some {| http.InsecureSkipVerify := true |} |};
       http.Client_Timeout := jwt.ClientTimeout (jwt.ClientConfig_ config);
       http.Client_Jar := Some {| http.psList := true; http.entries := ∅ |} |}.

End vocabulary.

(** * Conditions on the inputs of a pass *)
Module conditions.
Import gatewayv1beta1 networkingv1beta1 processing helpers istio vocabulary.

Section rounds.
Context `{!processing.Package, !helpers.Package}.

(** The service is there and has both a name and a port. *)
Definition service_completeb (service : option Service) : bool :=
  match service with
  | Some s =>
      match Service_Name s, Service_Port s with
      | Some _, Some _ => true
      | _, _ => false
      end
  | None => false
  end.

(** The round of [rule] dereferences a nil pointer: the rule routes to
    its backend and the backend service, its name or its port is
    missing, or the creator has no CORS configuration. *)
Definition round_panics (r : virtualServiceCreator) (api : APIRule) (rule : Rule) : bool :=
  ((negb (IsSecured rule) || IsJwtSecured rule)
   && negb (service_completeb (backend_service api rule)))
  || match corsConfig r with
     | Some _ => false
     | None => true
     end.

End rounds.

Section pointer.
Context `{!processing.Package, !helpers.Package,
          !gatewayv1beta1.MutatorMethods, !builders.HeadersBuilder}.

(** [Create] on its argument as the source declares it, a pointer to the
    APIRule: the first statement of [Create] (line 40) reads
    [api.ObjectMeta.Name] and so dereferences [api] before anything
    else; from there on the body is [istio.Create]. *)
Definition Create_ptr (r : virtualServiceCreator) (api : option APIRule)
    : exec (option VirtualService * option error) :=
  api <- deref api;
  Create r api.

End pointer.

(** The creator [r] with other additional labels. *)
Definition with_labels (labels : gmap string string) (r : virtualServiceCreator)
    : virtualServiceCreator :=
  {| oathkeeperSvc := oathkeeperSvc r;
     oathkeeperSvcPort := oathkeeperSvcPort r;
     corsConfig := corsConfig r;
     defaultDomainName := defaultDomainName r;
     additionalLabels := labels;
     httpTimeoutDuration := httpTimeoutDuration r |}.

(** The configuration [config] with other additional labels. *)
Definition config_with_labels (labels : gmap string string)
    (config : ReconciliationConfig) : ReconciliationConfig :=
  {| OathkeeperSvc := OathkeeperSvc config;
     OathkeeperSvcPort := OathkeeperSvcPort config;
     CorsConfig_ := CorsConfig_ config;
     AdditionalLabels := labels;
     DefaultDomainName := DefaultDomainName config;
     HTTPTimeoutDuration := HTTPTimeoutDuration config |}.

(** Two client-credentials configurations that differ at most in their
    endpoint parameters. *)
Definition same_credentials (a b : clientcredentials.Config) : Prop :=
  clientcredentials.ClientID a = clientcredentials.ClientID b ∧
  clientcredentials.ClientSecret a = clientcredentials.ClientSecret b ∧
  clientcredentials.TokenURL a = clientcredentials.TokenURL b ∧
  clientcredentials.Scopes a = clientcredentials.Scopes b.

(** The largest number of whole seconds whose nanoseconds fit a
    [time.Duration]. *)
Definition max_seconds : Z := 9223372036.

End conditions.

(** * Facts about the desired state *)
Import gatewayv1beta1 networkingv1beta1 processing helpers istio vocabulary.

Section creator_facts.
Context `{!processing.Package, !helpers.Package,
          !gatewayv1beta1.MutatorMethods, !builders.HeadersBuilder}.
Implicit Types (r : virtualServiceCreator) (api : APIRule) (rule : Rule).
Implicit Types (route : HTTPRoute) (vs : VirtualService).

(** The route that one round of the loop builds, field by field. *)
Definition route_of r api rule (host : string) (port : uint32)
    (cors : processing.CorsConfig) (apiHost : string) : HTTPRoute :=
  {| HTTPRoute_Match :=
       [uri_match (if String.eqb (Rule_Path rule) "/*"
                   then StringMatch_Prefix "/"
                   else StringMatch_Regex (Rule_Path rule))];
     HTTPRoute_Route := [destination host port];
     HTTPRoute_CorsPolicy :=
       Some {| Cors_AllowOrigins := processing.AllowOrigins cors;
               Cors_AllowMethods := processing.AllowMethods cors;
               Cors_AllowHeaders := processing.AllowHeaders cors |};
     HTTPRoute_Timeout := Some (wrap64 (time_Second * wrap64 (httpTimeoutDuration r)));
     HTTPRoute_Headers :=
       request_headers (GetHostWithDomain apiHost (defaultDomainName r)) rule
         (IsJwtSecured rule && HasCookies (GetCookieMutator rule).1)
         (IsJwtSecured rule && HasHeaders (GetHeaderMutator rule).1) |}.

(** Where the route of a rule leads. *)
Definition target_of r api rule (host : string) (port : uint32) : Prop :=
  if negb (IsSecured rule) || IsJwtSecured rule
  then ∃ s name, backend_service api rule = Some s ∧ Service_Name s = Some name
                 ∧ Service_Port s = Some port
                 ∧ host = GetHostLocalDomain name (FindServiceNamespace api rule)
  else host = oathkeeperSvc r ∧ port = oathkeeperSvcPort r.

Lemma Create_route_inl r api rule route :
  Create_route r api rule = Done (inl route) →
  ∃ host port cors apiHost,
    target_of r api rule host port ∧
    corsConfig r = Some cors ∧
    Spec_Host (gatewayv1beta1.Spec api) = Some apiHost ∧
    mutator_failure rule = None ∧
    route = route_of r api rule host port cors apiHost.
Proof.
  unfold Create_route, target_of, mutator_failure, route_of, request_headers,
    backend_service.
  intros Hroute.
  destruct (GetCookieMutator rule) as [cm ce] eqn:Hcm.
  destruct (GetHeaderMutator rule) as [hm he] eqn:Hhm.
  destruct (IsSecured rule), (IsJwtSecured rule); cbn [negb orb andb] in *.
  all: destruct (Rule_Service rule) as [rs|]; cbn in Hroute.
  all: repeat
    match type of Hroute with
    | context [deref ?o] => destruct o eqn:?; cbn in Hroute
    | context [match ?o with Some _ => _ | None => _ end] =>
        destruct o eqn:?; cbn in Hroute
    end; try discriminate.
  all: injection Hroute as <-.
  all: do 4 eexists; repeat split; eauto 10.
  all: cbn; destruct (HasHeaders hm), (HasCookies cm),
         (String.eqb (Rule_Path rule) "/*"); reflexivity.
Qed.

Lemma Create_route_inr r api rule err :
  Create_route r api rule = Done (inr err) → mutator_failure rule = Some err.
Proof.
  unfold Create_route, mutator_failure.
  intros Hroute.
  destruct (GetCookieMutator rule) as [cm ce] eqn:Hcm.
  destruct (GetHeaderMutator rule) as [hm he] eqn:Hhm.
  destruct (IsSecured rule), (IsJwtSecured rule); cbn [negb orb andb] in *.
  all: destruct (Rule_Service rule) as [rs|]; cbn in Hroute.
  all: repeat
    match type of Hroute with
    | context [deref ?o] => destruct o eqn:?; cbn in Hroute
    | context [match ?o with Some _ => _ | None => _ end] =>
        destruct o eqn:?; cbn in Hroute
    end; try discriminate.
  all: by injection Hroute as <-.
Qed.

(** One round never panics, and ends as the mutators decide, once the
    pointers it dereferences are set. *)
Lemma Create_route_eq r api rule host port cors apiHost :
  target_of r api rule host port →
  corsConfig r = Some cors →
  Spec_Host (gatewayv1beta1.Spec api) = Some apiHost →
  Create_route r api rule =
    Done (match mutator_failure rule with
          | Some err => inr err
          | None => inl (route_of r api rule host port cors apiHost)
          end).
Proof.
  unfold Create_route, target_of, mutator_failure, route_of, request_headers,
    backend_service.
  intros Htarget -> ->.
  destruct (GetCookieMutator rule) as [cm ce] eqn:Hcm.
  destruct (GetHeaderMutator rule) as [hm he] eqn:Hhm.
  destruct (IsSecured rule), (IsJwtSecured rule); cbn [negb orb andb] in *.
  all: try (destruct Htarget as (s & name & Hs & Hname & Hport & ->);
            destruct (Rule_Service rule) as [rs|];
            [injection Hs as ->|rewrite Hs]; cbn; rewrite Hname, Hport).
  all: try destruct Htarget as [-> ->].
  all: cbn; destruct ce, he; cbn; try reflexivity.
  all: destruct (HasHeaders hm), (HasCookies cm),
         (String.eqb (Rule_Path rule) "/*"); reflexivity.
Qed.

(** The loop appends one route per rule, in order, as long as no round
    fails. *)
Lemma Create_loop_inl r api rules (s s' : VirtualServiceSpec) :
  Create_loop r api rules s = Done (inl s') →
  ∃ routes,
    Forall2 (λ rule route, Create_route r api rule = Done (inl route)) rules routes ∧
    s' = {| Hosts := Hosts s; Gateways := Gateways s; Http := Http s ++ routes |}.
Proof.
  revert s. induction rules as [|rule rest IH]; intros s Hloop; cbn in Hloop.
  - injection Hloop as <-. exists []. split; [constructor|].
    rewrite app_nil_r. by destruct s.
  - destruct (Create_route r api rule) as [[route|err]|] eqn:Hroute;
      cbn in Hloop; try discriminate.
    destruct (IH _ Hloop) as (routes & Hall & ->).
    exists (route :: routes). split; [by constructor|].
    cbn. by rewrite <- app_assoc.
Qed.

(** The loop stops at the first round that fails. *)
Lemma Create_loop_inr r api rules (s : VirtualServiceSpec) err :
  Create_loop r api rules s = Done (inr err) →
  ∃ pre rule post,
    rules = (pre ++ rule :: post)%list ∧
    Forall (λ x, mutator_failure x = None) pre ∧
    mutator_failure rule = Some err.
Proof.
  revert s. induction rules as [|rule rest IH]; intros s Hloop; cbn in Hloop.
  - discriminate.
  - destruct (Create_route r api rule) as [[route|err']|] eqn:Hroute;
      cbn in Hloop; try discriminate.
    + destruct (IH _ Hloop) as (pre & x & post & -> & Hpre & Hx).
      exists (rule :: pre), x, post. split; [done|]. split; [|done].
      constructor; [|done].
      by destruct (Create_route_inl _ _ _ _ Hroute) as (? & ? & ? & ? & ? & ? & ? & ? & ?).
    + injection Hloop as <-.
      exists [], rule, rest. split; [done|]. split; [constructor|].
      by apply Create_route_inr in Hroute.
Qed.

(** Ranging over the additional labels stores each of them, on top of
    the labels already there. *)
Lemma fold_Label (extra : gmap string string) vs :
  map_fold (λ k v b, builders.Label k v b) vs extra =
    {| networkingv1beta1.ObjectMeta :=
         {| metav1.Name := metav1.Name (networkingv1beta1.ObjectMeta vs);
            metav1.GenerateName := metav1.GenerateName (networkingv1beta1.ObjectMeta vs);
            metav1.Namespace := metav1.Namespace (networkingv1beta1.ObjectMeta vs);
            metav1.ResourceVersion :=
              metav1.ResourceVersion (networkingv1beta1.ObjectMeta vs);
            metav1.Labels := extra ∪ metav1.Labels (networkingv1beta1.ObjectMeta vs) |};
       networkingv1beta1.Spec := networkingv1beta1.Spec vs |}.
Proof.
  apply (map_fold_weak_ind (λ b (m : gmap string string),
    b = {| networkingv1beta1.ObjectMeta :=
             {| metav1.Name := metav1.Name (networkingv1beta1.ObjectMeta vs);
                metav1.GenerateName :=
                  metav1.GenerateName (networkingv1beta1.ObjectMeta vs);
                metav1.Namespace := metav1.Namespace (networkingv1beta1.ObjectMeta vs);
                metav1.ResourceVersion :=
                  metav1.ResourceVersion (networkingv1beta1.ObjectMeta vs);
                metav1.Labels := m ∪ metav1.Labels (networkingv1beta1.ObjectMeta vs) |};
           networkingv1beta1.Spec := networkingv1beta1.Spec vs |})).
  - rewrite (left_id_L ∅ (∪)). by destruct vs as [[] ?].
  - intros k v m b _ ->. unfold builders.Label, builders.with_meta; cbn.
    by rewrite insert_union_l.
Qed.

(** The object of a successful [Create]. *)
Definition desired_object r api (apiHost apiGateway : string) (routes : list HTTPRoute)
    : VirtualService :=
  {| networkingv1beta1.ObjectMeta :=
       {| metav1.Name := "";
          metav1.GenerateName := metav1.Name (gatewayv1beta1.ObjectMeta api) +:+ "-";
          metav1.Namespace := metav1.Namespace (gatewayv1beta1.ObjectMeta api);
          metav1.ResourceVersion := "";
          metav1.Labels :=
            additionalLabels r ∪
            <[OwnerLabelv1alpha1 := owner_of api]> (<[OwnerLabel := owner_of api]> ∅) |};
     networkingv1beta1.Spec :=
       {| Hosts := [GetHostWithDomain apiHost (defaultDomainName r)];
          Gateways := [apiGateway];
          Http := routes |} |}.

Lemma Create_inv r api res :
  Create r api = Done res →
  (∃ apiHost apiGateway routes,
      Spec_Host (gatewayv1beta1.Spec api) = Some apiHost ∧
      Spec_Gateway (gatewayv1beta1.Spec api) = Some apiGateway ∧
      Forall2 (λ rule route, Create_route r api rule = Done (inl route))
        (surviving_rules api) routes ∧
      res = (Some (desired_object r api apiHost apiGateway routes), None))
  ∨ (∃ err pre rule post,
      surviving_rules api = (pre ++ rule :: post)%list ∧
      Forall (λ x, mutator_failure x = None) pre ∧
      mutator_failure rule = Some err ∧
      res = (None, Some err)).
Proof.
  unfold Create. intros Hcreate.
  destruct (Spec_Host (gatewayv1beta1.Spec api)) as [apiHost|]; [|discriminate].
  destruct (Spec_Gateway (gatewayv1beta1.Spec api)) as [apiGateway|]; [|discriminate].
  cbn in Hcreate.
  destruct (Create_loop _ _ _ _) as [[s'|err]|] eqn:Hloop; cbn in Hcreate;
    [| |discriminate]; injection Hcreate as <-.
  - left. apply Create_loop_inl in Hloop as (routes & Hall & ->).
    exists apiHost, apiGateway, routes. repeat split; [done|].
    rewrite fold_Label. reflexivity.
  - right. apply Create_loop_inr in Hloop as (pre & rule & post & ? & ? & ?).
    by exists err, pre, rule, post.
Qed.

Lemma Create_inv_Some r api vs err :
  Create r api = Done (Some vs, err) →
  err = None ∧
  ∃ apiHost apiGateway routes,
    Spec_Host (gatewayv1beta1.Spec api) = Some apiHost ∧
    Spec_Gateway (gatewayv1beta1.Spec api) = Some apiGateway ∧
    Forall2 (λ rule route, Create_route r api rule = Done (inl route))
      (surviving_rules api) routes ∧
    vs = desired_object r api apiHost apiGateway routes.
Proof.
  intros [(apiHost & apiGateway & routes & ? & ? & ? & [= -> ->])
         |(? & ? & ? & ? & _ & _ & _ & [=])]%Create_inv.
  split; [done|]. by exists apiHost, apiGateway, routes.
Qed.

(** The route at the position of a surviving rule is the one its round
    of the loop built. *)
Lemma Create_route_at r api vs err (i : nat) rule :
  Create r api = Done (Some vs, err) →
  surviving_rules api !! i = Some rule →
  ∃ route host port cors apiHost,
    Http (networkingv1beta1.Spec vs) !! i = Some route ∧
    target_of r api rule host port ∧
    corsConfig r = Some cors ∧
    Spec_Host (gatewayv1beta1.Spec api) = Some apiHost ∧
    mutator_failure rule = None ∧
    route = route_of r api rule host port cors apiHost.
Proof.
  intros (_ & ? & ? & routes & _ & _ & Hall & ->)%Create_inv_Some Hi.
  destruct (Forall2_lookup_l _ _ _ _ _ Hall Hi) as (route & Hroute & Hbuilt).
  apply Create_route_inl in Hbuilt as (host & port & cors & apiHost & ?).
  by exists route, host, port, cors, apiHost.
Qed.

(** A loop that reaches a round whose mutators fail ends with the error
    of the first such round. *)
Lemma Create_loop_first_failure r api pre rule post (s : VirtualServiceSpec) err res :
  Forall (λ x, mutator_failure x = None) pre →
  mutator_failure rule = Some err →
  Create_loop r api (pre ++ rule :: post)%list s = Done res →
  res = inr err.
Proof.
  intros Hpre Hrule. revert s.
  induction Hpre as [|x pre Hx _ IH]; intros s Hloop; cbn in Hloop.
  - destruct (Create_route r api rule) as [[route|err']|] eqn:Hroute;
      cbn in Hloop; try discriminate.
    + apply Create_route_inl in Hroute as (? & ? & ? & ? & _ & _ & _ & Hnone & _).
      congruence.
    + apply Create_route_inr in Hroute. injection Hloop as <-. congruence.
  - destruct (Create_route r api x) as [[route|err']|] eqn:Hroute;
      cbn in Hloop; try discriminate.
    + by eapply IH.
    + apply Create_route_inr in Hroute. congruence.
Qed.

(** [Create] returns, without a panic, on a well-formed input. *)
Lemma Create_loop_returns r api rules (s : VirtualServiceSpec) apiHost :
  Spec_Host (gatewayv1beta1.Spec api) = Some apiHost →
  Forall (λ rule,
            is_Some (corsConfig r) ∧
            (negb (IsSecured rule) || IsJwtSecured rule = true →
             service_complete (backend_service api rule))) rules →
  ∃ res, Create_loop r api rules s = Done res.
Proof.
  intros Hhost Hall. revert s.
  induction Hall as [|rule rest [[cors Hcors] Hsvc] _ IH]; intros s; cbn.
  - by eexists.
  - assert (∃ host port, target_of r api rule host port) as (host & port & Htarget).
    { unfold target_of.
      destruct (negb (IsSecured rule) || IsJwtSecured rule).
      - destruct (Hsvc eq_refl) as (sv & name & port & ? & ? & ?).
        exists (GetHostLocalDomain name (FindServiceNamespace api rule)), port.
        by exists sv, name.
      - by exists (oathkeeperSvc r), (oathkeeperSvcPort r). }
    rewrite (Create_route_eq _ _ _ _ _ _ _ Htarget Hcors Hhost).
    destruct (mutator_failure rule); cbn; [by eexists|apply IH].
Qed.

Lemma Create_returns r api :
  well_formed r api → ∃ res, Create r api = Done res.
Proof.
  intros ([apiHost Hhost] & [apiGateway Hgw] & Hall).
  unfold Create. rewrite Hhost, Hgw. cbn.
  edestruct (Create_loop_returns r api) as [res ->]; [done..|].
  destruct res; cbn; by eexists.
Qed.

End creator_facts.

(** * The desired state: routing target, path match, mutations, labels *)
Section creator_claims.
Context `{!processing.Package, !helpers.Package,
          !gatewayv1beta1.MutatorMethods, !builders.HeadersBuilder}.
Implicit Types (r : virtualServiceCreator) (api : APIRule) (rule : Rule).
Implicit Types (route : HTTPRoute) (vs : VirtualService).

(** C1. Routing target.  In the VirtualService that [Create] returns,
    the route at the position of a surviving rule has one destination.
    For a rule that is not secured (no access strategy) or is JWT
    secured it is the backend service: the rule's own service when
    present, otherwise the default service of the APIRule, with the
    cluster-local host of its name and its port.  For every other rule
    it is the oathkeeper service and port of the configuration. *)
Theorem routing_target r api vs err (i : nat) rule :
  Create r api = Done (Some vs, err) →
  surviving_rules api !! i = Some rule →
  ∃ route,
    Http (networkingv1beta1.Spec vs) !! i = Some route ∧
    (IsSecured rule = false ∨ IsJwtSecured rule = true →
     ∃ service name port,
       backend_service api rule = Some service ∧
       Service_Name service = Some name ∧
       Service_Port service = Some port ∧
       HTTPRoute_Route route =
         [destination (GetHostLocalDomain name (FindServiceNamespace api rule)) port]) ∧
    (IsSecured rule = true ∧ IsJwtSecured rule = false →
     HTTPRoute_Route route = [destination (oathkeeperSvc r) (oathkeeperSvcPort r)]).
Proof.
  intros Hcreate Hi.
  destruct (Create_route_at _ _ _ _ _ _ Hcreate Hi)
    as (route & host & port & cors & apiHost & Hroute & Htarget & _ & _ & _ & Hshape).
  exists route. split; [done|]. subst route. unfold target_of in Htarget. split.
  - intros Hdirect.
    assert (negb (IsSecured rule) || IsJwtSecured rule = true) as Hb.
    { destruct Hdirect as [-> | ->]; [done|]. by destruct (IsSecured rule). }
    rewrite Hb in Htarget. destruct Htarget as (service & name & ? & ? & ? & ->).
    by exists service, name, port.
  - intros [Hsec Hjwt]. rewrite Hsec, Hjwt in Htarget. cbn in Htarget.
    by destruct Htarget as [-> ->].
Qed.

(** C3. Path match.  The route of a surviving rule whose path is the
    literal "/*" has, as its only match, a URI prefix match on "/"; the
    route of a rule with any other path [P] has a URI regex match whose
    pattern is [P] itself, unescaped. *)
Theorem path_match r api vs err (i : nat) rule :
  Create r api = Done (Some vs, err) →
  surviving_rules api !! i = Some rule →
  ∃ route,
    Http (networkingv1beta1.Spec vs) !! i = Some route ∧
    (Rule_Path rule = "/*" →
     HTTPRoute_Match route = [uri_match (StringMatch_Prefix "/")]) ∧
    (Rule_Path rule ≠ "/*" →
     HTTPRoute_Match route = [uri_match (StringMatch_Regex (Rule_Path rule))]).
Proof.
  intros Hcreate Hi.
  destruct (Create_route_at _ _ _ _ _ _ Hcreate Hi)
    as (route & host & port & cors & apiHost & Hroute & _ & _ & _ & _ & Hshape).
  exists route. split; [done|]. subst route. cbn.
  destruct (String.eqb_spec (Rule_Path rule) "/*") as [Heq|Hne]; split; intros ?;
    done.
Qed.

(** C6. Route count and order.  The VirtualService that [Create]
    returns has exactly one route per surviving rule, in the order of
    the surviving rules: the lists have the same length and the route at
    each position is the one built from the rule at that position. *)
Theorem route_per_surviving_rule r api vs err :
  Create r api = Done (Some vs, err) →
  length (Http (networkingv1beta1.Spec vs)) = length (surviving_rules api) ∧
  Forall2 (λ rule route, Create_route r api rule = Done (inl route))
    (surviving_rules api) (Http (networkingv1beta1.Spec vs)).
Proof.
  intros (_ & ? & ? & routes & _ & _ & Hall & ->)%Create_inv_Some. cbn.
  split; [|done]. symmetry. by eapply Forall2_length.
Qed.

(** C4. Request mutations.  The headers of the route of a surviving
    rule are the host rewrite, plus the cookie mutation exactly when the
    rule is JWT secured and its cookie mutator has cookies, plus the
    header mutation exactly when the rule is JWT secured and its header
    mutator has headers; so a rule that is not JWT secured carries
    neither.  When [Create] returns and the mutators of some surviving
    rule cannot be constructed, it returns the error of the first such
    rule and no object; whenever it returns an error it returns no
    object. *)
Theorem request_mutations r api :
  (∀ vs err (i : nat) rule,
      Create r api = Done (Some vs, err) →
      surviving_rules api !! i = Some rule →
      ∃ route apiHost,
        Http (networkingv1beta1.Spec vs) !! i = Some route ∧
        Spec_Host (gatewayv1beta1.Spec api) = Some apiHost ∧
        HTTPRoute_Headers route =
          request_headers (GetHostWithDomain apiHost (defaultDomainName r)) rule
            (IsJwtSecured rule && HasCookies (GetCookieMutator rule).1)
            (IsJwtSecured rule && HasHeaders (GetHeaderMutator rule).1)) ∧
  (∀ res pre rule post failure,
      Create r api = Done res →
      surviving_rules api = (pre ++ rule :: post)%list →
      Forall (λ x, mutator_failure x = None) pre →
      mutator_failure rule = Some failure →
      res = (None, Some failure)) ∧
  (∀ (object : option VirtualService) failure,
      Create r api = Done (object, Some failure) →
      object = None ∧
      ∃ rule, rule ∈ surviving_rules api ∧ mutator_failure rule = Some failure).
Proof.
  split; [|split].
  - intros vs err i rule Hcreate Hi.
    destruct (Create_route_at _ _ _ _ _ _ Hcreate Hi)
      as (route & host & port & cors & apiHost & Hroute & _ & _ & Hhost & _ & Hshape).
    exists route, apiHost. by subst route.
  - intros res pre rule post failure Hcreate Hsplit Hpre Hrule.
    unfold Create in Hcreate. fold (surviving_rules api) in Hcreate.
    destruct (Spec_Host (gatewayv1beta1.Spec api)); [|discriminate].
    destruct (Spec_Gateway (gatewayv1beta1.Spec api)); [|discriminate].
    cbn in Hcreate. rewrite Hsplit in Hcreate.
    destruct (Create_loop _ _ _ _) as [loop|] eqn:Hloop; [|discriminate].
    apply (Create_loop_first_failure _ _ _ _ _ _ _ _ Hpre Hrule) in Hloop as ->.
    cbn in Hcreate. by injection Hcreate as <-.
  - intros object failure
      [(? & ? & ? & _ & _ & _ & [=])
      |(err & pre & rule & post & Hsplit & _ & Hrule & [= -> ->])]%Create_inv.
    split; [done|]. exists rule. split; [|done].
    rewrite Hsplit. apply elem_of_app. right. constructor.
Qed.

(** C8, as amended.  The VirtualService that [Create] returns is in the
    namespace of the APIRule and carries both ownership label keys and
    every additional label of the configuration.  An ownership key maps
    to "<name>.<namespace>" of the APIRule unless the additional labels
    have that key too: the additional labels are stored last. *)
Theorem ownership_labels r api vs err :
  Create r api = Done (Some vs, err) →
  metav1.Namespace (networkingv1beta1.ObjectMeta vs) =
    metav1.Namespace (gatewayv1beta1.ObjectMeta api) ∧
  is_Some (metav1.Labels (networkingv1beta1.ObjectMeta vs) !! OwnerLabel) ∧
  is_Some (metav1.Labels (networkingv1beta1.ObjectMeta vs) !! OwnerLabelv1alpha1) ∧
  (∀ k v, additionalLabels r !! k = Some v →
          metav1.Labels (networkingv1beta1.ObjectMeta vs) !! k = Some v) ∧
  (additionalLabels r !! OwnerLabel = None →
   metav1.Labels (networkingv1beta1.ObjectMeta vs) !! OwnerLabel = Some (owner_of api)) ∧
  (additionalLabels r !! OwnerLabelv1alpha1 = None →
   metav1.Labels (networkingv1beta1.ObjectMeta vs) !! OwnerLabelv1alpha1
     = Some (owner_of api)).
Proof.
  intros (_ & ? & ? & routes & _ & _ & _ & ->)%Create_inv_Some. cbn.
  assert (∀ k, k = OwnerLabel ∨ k = OwnerLabelv1alpha1 →
    (<[OwnerLabelv1alpha1 := owner_of api]> (<[OwnerLabel := owner_of api]> ∅)
       : gmap string string) !! k = Some (owner_of api)) as Hown.
  { intros k [-> | ->].
    - rewrite lookup_insert. case_decide; [done|]. by rewrite lookup_insert_eq.
    - by rewrite lookup_insert_eq. }
  split; [done|]. split; [|split; [|split; [|split]]].
  - rewrite lookup_union, Hown by auto.
    by destruct (additionalLabels r !! OwnerLabel).
  - rewrite lookup_union, Hown by auto.
    by destruct (additionalLabels r !! OwnerLabelv1alpha1).
  - intros k v Hk. by apply lookup_union_Some_l.
  - intros Hfree. rewrite lookup_union_r by done. auto.
  - intros Hfree. rewrite lookup_union_r by done. auto.
Qed.

End creator_claims.

(** * The reconciliation processor *)
Section processor_claims.
Context `{!processing.Package}.
Implicit Types (p : processors.VirtualServiceProcessor) (ctx : context.Context).
Implicit Types (client : ctrlclient.Client) (api : APIRule).
Implicit Types (desired actual : option VirtualService).

Import processors.

Lemma getActualState_error p ctx client api list err :
  ctrlclient.List client ctx (GetOwnerLabels api) = (list, Some err) →
  getActualState p ctx client api = (None, Some err).
Proof. unfold getActualState. by intros ->. Qed.

Lemma getActualState_empty p ctx client api :
  ctrlclient.List client ctx (GetOwnerLabels api) = ({| Items := [] |}, None) →
  getActualState p ctx client api = (None, None).
Proof. unfold getActualState. by intros ->. Qed.

Lemma getActualState_first p ctx client api first rest :
  ctrlclient.List client ctx (GetOwnerLabels api) = ({| Items := first :: rest |}, None) →
  getActualState p ctx client api = (first, None).
Proof. unfold getActualState. by intros ->. Qed.

Lemma EvaluateReconciliation_diff p ctx client api desired actual :
  getDesiredState p api = Done (desired, None) →
  getActualState p ctx client api = (actual, None) →
  EvaluateReconciliation p ctx client api =
    (change <- getObjectChanges p desired actual; Done ([change], None)).
Proof. unfold EvaluateReconciliation. by intros -> ->. Qed.

Lemma EvaluateReconciliation_lookup_error p ctx client api desired actual err :
  getDesiredState p api = Done (desired, None) →
  getActualState p ctx client api = (actual, Some err) →
  EvaluateReconciliation p ctx client api = Done ([], Some err).
Proof. unfold EvaluateReconciliation. by intros -> ->. Qed.

(** A lookup without error always yields an actual state. *)
Lemma getActualState_found p ctx client api list :
  ctrlclient.List client ctx (GetOwnerLabels api) = (list, None) →
  ∃ actual, getActualState p ctx client api = (actual, None).
Proof.
  unfold getActualState. intros ->.
  destruct (1 <=? length (Items list))%nat; by eexists.
Qed.

(** C5. Error handling of a pass.  A pass whose desired state is built
    and whose lookup succeeds returns exactly one change, the one of the
    diff, and no error; any pass that returns without an error returns
    exactly one change.  When the construction of the desired state
    returns an error, or, after it succeeded, the lookup of the actual
    state returns an error, the pass returns that error with an empty
    change list; no returned error comes with a change. *)
Theorem one_change_or_error p ctx client api :
  (∀ (desired : VirtualService) list,
      getDesiredState p api = Done (Some desired, None) →
      ctrlclient.List client ctx (GetOwnerLabels api) = (list, None) →
      ∃ actual change,
        getActualState p ctx client api = (actual, None) ∧
        getObjectChanges p (Some desired) actual = Done change ∧
        EvaluateReconciliation p ctx client api = Done ([change], None)) ∧
  (∀ changes, EvaluateReconciliation p ctx client api = Done (changes, None) →
              length changes = 1%nat) ∧
  (∀ desired err, getDesiredState p api = Done (desired, Some err) →
                  EvaluateReconciliation p ctx client api = Done ([], Some err)) ∧
  (∀ desired list err,
      getDesiredState p api = Done (desired, None) →
      ctrlclient.List client ctx (GetOwnerLabels api) = (list, Some err) →
      EvaluateReconciliation p ctx client api = Done ([], Some err)) ∧
  (∀ changes err, EvaluateReconciliation p ctx client api = Done (changes, Some err) →
                  changes = []).
Proof.
  split; [|split; [|split; [|split]]].
  - intros desired list Hdesired Hlist.
    destruct (getActualState_found p _ _ _ _ Hlist) as [actual Hactual].
    exists actual.
    rewrite (EvaluateReconciliation_diff _ _ _ _ _ _ Hdesired Hactual).
    destruct actual as [found|]; cbn; by eexists.
  - unfold EvaluateReconciliation. intros changes Hpass.
    destruct (getDesiredState p api) as [[desired [err|]]|]; try discriminate.
    cbn in Hpass.
    destruct (getActualState p ctx client api) as [actual [err|]]; [discriminate|].
    destruct (getObjectChanges p desired actual); [|discriminate].
    by injection Hpass as <-.
  - unfold EvaluateReconciliation. by intros desired err ->.
  - intros desired list err Hdesired Hlist.
    eapply EvaluateReconciliation_lookup_error; [done|].
    by eapply getActualState_error.
  - unfold EvaluateReconciliation. intros changes err' Hpass.
    destruct (getDesiredState p api) as [[desired [err|]]|]; try discriminate.
    { cbn in Hpass. by injection Hpass as <- _. }
    cbn in Hpass.
    destruct (getActualState p ctx client api) as [actual [err|]].
    { by injection Hpass as <- _. }
    destruct (getObjectChanges p desired actual); discriminate.
Qed.

(** C7. Actual state.  A lookup error makes [getActualState] return the
    error, and the pass, the desired state being built, return it with
    no change.  A lookup with no item means no actual object, and the
    pass emits a create of the desired object.  A lookup with one or
    more items makes the first item the actual object, whatever
    follows it. *)
Theorem actual_state_is_first_item p ctx client api :
  (∀ list err,
      ctrlclient.List client ctx (GetOwnerLabels api) = (list, Some err) →
      getActualState p ctx client api = (None, Some err) ∧
      ∀ desired, getDesiredState p api = Done (desired, None) →
                 EvaluateReconciliation p ctx client api = Done ([], Some err)) ∧
  (ctrlclient.List client ctx (GetOwnerLabels api) = ({| Items := [] |}, None) →
   getActualState p ctx client api = (None, None) ∧
   ∀ desired, getDesiredState p api = Done (desired, None) →
              EvaluateReconciliation p ctx client api =
                Done ([NewObjectCreateAction desired], None)) ∧
  (∀ first rest,
      ctrlclient.List client ctx (GetOwnerLabels api)
        = ({| Items := first :: rest |}, None) →
      getActualState p ctx client api = (first, None)).
Proof.
  split; [|split].
  - intros list err Hlist.
    pose proof (getActualState_error p _ _ _ _ _ Hlist) as Hactual.
    split; [done|]. intros desired Hdesired.
    by eapply EvaluateReconciliation_lookup_error.
  - intros Hlist. pose proof (getActualState_empty p _ _ _ Hlist) as Hactual.
    split; [done|]. intros desired Hdesired.
    by rewrite (EvaluateReconciliation_diff _ _ _ _ _ _ Hdesired Hactual).
  - intros first rest Hlist. by eapply getActualState_first.
Qed.

End processor_claims.

(** * The diff of the Istio processor *)
Section diff_claims.
Context `{!processing.Package, !helpers.Package,
          !gatewayv1beta1.MutatorMethods, !builders.HeadersBuilder}.
Implicit Types (p : processors.VirtualServiceProcessor) (ctx : context.Context).
Implicit Types (client : ctrlclient.Client) (api : APIRule).
Implicit Types (desired actual : VirtualService).

Import processors.

Lemma getObjectChanges_update p desired actual :
  getObjectChanges p (Some desired) (Some actual) =
    Done (NewObjectUpdateAction
            (Some {| networkingv1beta1.ObjectMeta := networkingv1beta1.ObjectMeta actual;
                     networkingv1beta1.Spec := networkingv1beta1.Spec desired |})).
Proof. reflexivity. Qed.

(** C2. Diff.  With an actual object, [getObjectChanges] emits an update
    of an object that has the metadata of the actual one, hence its
    name, namespace and resource version, and the Spec of the desired
    one; without, it emits a create of the desired object.  A pass of
    the Istio processor whose lookup succeeded emits exactly that
    change, and its desired object has an empty name, to be generated
    on write. *)
Theorem diff_update_or_create :
  (∀ p desired actual,
      ∃ object,
        getObjectChanges p (Some desired) (Some actual)
          = Done (NewObjectUpdateAction (Some object)) ∧
        same_identity object actual ∧
        networkingv1beta1.ObjectMeta object = networkingv1beta1.ObjectMeta actual ∧
        networkingv1beta1.Spec object = networkingv1beta1.Spec desired) ∧
  (∀ p desired,
      getObjectChanges p (Some desired) None
        = Done (NewObjectCreateAction (Some desired))) ∧
  (∀ config ctx client api desired (found : option VirtualService),
      getDesiredState (NewVirtualServiceProcessor config) api
        = Done (Some desired, None) →
      getActualState (NewVirtualServiceProcessor config) ctx client api
        = (found, None) →
      metav1.Name (networkingv1beta1.ObjectMeta desired) = "" ∧
      match found with
      | Some actual =>
          ∃ object,
            EvaluateReconciliation (NewVirtualServiceProcessor config) ctx client api
              = Done ([NewObjectUpdateAction (Some object)], None) ∧
            same_identity object actual ∧
            networkingv1beta1.Spec object = networkingv1beta1.Spec desired
      | None =>
          EvaluateReconciliation (NewVirtualServiceProcessor config) ctx client api
            = Done ([NewObjectCreateAction (Some desired)], None)
      end).
Proof.
  split; [|split].
  - intros p desired actual. eexists. split; [apply getObjectChanges_update|].
    by repeat split.
  - reflexivity.
  - intros config ctx client api desired found Hdesired Hactual. split.
    + unfold getDesiredState in Hdesired. cbn in Hdesired.
      by apply Create_inv_Some in Hdesired as (_ & ? & ? & ? & _ & _ & _ & ->).
    + rewrite (EvaluateReconciliation_diff _ _ _ _ _ _ Hdesired Hactual).
      destruct found as [actual|]; [|done].
      eexists. split; [reflexivity|]. by repeat split.
Qed.

End diff_claims.

(** * The token helper *)
Section token_claims.
Import oauth2 jwt.
Implicit Types (oauth2Cfg : clientcredentials.Config) (config : jwt.Config).
Implicit Types (tokenType : list string).

(** [GetAccessToken] makes one token request, and its result is a
    function of the answer. *)
Lemma GetAccessToken_request {world : jwt.World} oauth2Cfg config tokenType :
  GetAccessToken oauth2Cfg (Some config) tokenType =
    match Token_ (request_config oauth2Cfg tokenType) (request_context config) with
    | (_, Some err) => Done ("", Some err)
    | (token, None) =>
        if Valid token then
          match token with
          | Some t =>
              if String.eqb (TokenType t) "Bearer"
              then Done (AccessToken t, None)
              else Done ("", Some (Errorf "token type = %q; want %q"
                                     [ArgString (TokenType t); ArgString "Bearer"]))
          | None => Panic
          end
        else Done ("", Some (Errorf "token invalid. got: %#v" [ArgToken token]))
    end.
Proof.
  unfold GetAccessToken, request_config, request_context. cbn.
  destruct tokenType as [|format rest].
  - destruct (Token_ _ _) as [token [err|]]; [done|].
    destruct (Valid token); cbn; [|done].
    destruct token as [t|]; cbn; [|done]. by destruct (String.eqb _ _).
  - unfold url.Add, url.make_Values. rewrite lookup_empty, insert_empty. cbn.
    destruct (Token_ _ _) as [token [err|]]; [done|].
    destruct (Valid token); cbn; [|done].
    destruct token as [t|]; cbn; [|done]. by destruct (String.eqb _ _).
Qed.

End token_claims.

Section token_theorems.
Import oauth2 jwt.
Implicit Types (oauth2Cfg : clientcredentials.Config).
Implicit Types (tokenType : list string).

(** C9. Outcomes of [GetAccessToken].  With a configuration it always
    returns.  Whenever it returns, the token request was answered in one
    of four ways, and the result is fixed by which: a valid token of
    type "Bearer" gives that token's access token and no error; an error
    of the request gives that error; an invalid (absent, empty or
    expired) token gives the invalid-token error; a valid token of
    another type gives the token-type error.  In the three failures the
    returned string is empty. *)
Theorem token_or_one_failure {world : World} oauth2Cfg (config : option jwt.Config) tokenType :
  (∀ c, config = Some c →
        ∃ result, GetAccessToken oauth2Cfg config tokenType = Done result) ∧
  (∀ result,
      GetAccessToken oauth2Cfg config tokenType = Done result →
      ∃ c token answer_err,
        config = Some c ∧
        Token_ (request_config oauth2Cfg tokenType) (request_context c)
          = (token, answer_err) ∧
        ((∃ t, token = Some t ∧ answer_err = None ∧ Valid token = true ∧
               TokenType t = "Bearer" ∧ AccessToken t ≠ "" ∧
               result = (AccessToken t, None))
         ∨ (∃ err, answer_err = Some err ∧ result = ("", Some err))
         ∨ (answer_err = None ∧ Valid token = false ∧
            result = ("", Some (Errorf "token invalid. got: %#v" [ArgToken token])))
         ∨ (∃ t, token = Some t ∧ answer_err = None ∧ Valid token = true ∧
                 TokenType t ≠ "Bearer" ∧
                 result = ("", Some (Errorf "token type = %q; want %q"
                                       [ArgString (TokenType t); ArgString "Bearer"])))) ∧
        (∀ s err, result = (s, Some err) → s = "")).
Proof.
  split.
  - intros c ->. rewrite GetAccessToken_request.
    destruct (Token_ _ _) as [token [err|]]; [by eexists|].
    destruct token as [t|]; cbn; [|by eexists].
    destruct (negb _ && negb _); [|by eexists].
    destruct (String.eqb _ _); by eexists.
  - intros result Hresult. destruct config as [c|]; [|discriminate].
    rewrite GetAccessToken_request in Hresult.
    destruct (Token_ _ _) as [token answer_err] eqn:Hanswer.
    exists c, token, answer_err. split; [done|]. split; [done|].
    destruct answer_err as [err|].
    { injection Hresult as <-. split; [|by intros ? ? [= <- _]].
      right; left. by exists err. }
    destruct (Valid token) eqn:Hvalid.
    2:{ injection Hresult as <-. split; [|by intros ? ? [= <- _]].
        right; right; left. done. }
    destruct token as [t|]; [|discriminate].
    destruct (String.eqb_spec (TokenType t) "Bearer") as [Htype|Htype];
      injection Hresult as <-.
    + split; [|by intros ? ? [=]]. left. exists t. repeat split; try done.
      cbn in Hvalid. intros Hempty. by rewrite Hempty in Hvalid.
    + split; [|by intros ? ? [= <- _]]. right; right; right. by exists t.
Qed.

(** C10. Certificate verification.  Whatever the client-credentials
    configuration, the configuration and the token format, there is an
    HTTP client whose transport has [InsecureSkipVerify] set and with
    which [GetAccessToken] makes its token request: for every token
    endpoint, the result is the one that the endpoint's answer to the
    request carrying that client commands (its error, or the access token
    of its valid Bearer token), and it depends on the endpoint through
    that answer alone.  So an endpoint that only a client which skips
    verification can reach is reached, on every input; without a
    configuration there is no request at all. *)
Theorem certificate_verification_disabled oauth2Cfg (config : option jwt.Config) tokenType :
  match config with
  | Some c =>
      ∃ client,
        http.Client_Transport client
          = Some {| http.TLSClientConfig :=
                      Some {| http.InsecureSkipVerify := true |} |} ∧
        skips_verification client = true ∧
        context.Value (request_context c) context.HTTPClient = Some client ∧
        ∀ W : World,
          (∀ token err,
              @Token_ W (request_config oauth2Cfg tokenType)
                (context.WithValue context.Background context.HTTPClient client)
                = (token, Some err) →
              @GetAccessToken W oauth2Cfg config tokenType = Done ("", Some err)) ∧
          (∀ t,
              @Token_ W (request_config oauth2Cfg tokenType)
                (context.WithValue context.Background context.HTTPClient client)
                = (Some t, None) →
              AccessToken t ≠ "" → @expired W t = false → TokenType t = "Bearer" →
              @GetAccessToken W oauth2Cfg config tokenType = Done (AccessToken t, None)) ∧
          (∀ W' : World,
              (∀ t, @expired W t = @expired W' t) →
              @Token_ W (request_config oauth2Cfg tokenType)
                (context.WithValue context.Background context.HTTPClient client)
              = @Token_ W' (request_config oauth2Cfg tokenType)
                  (context.WithValue context.Background context.HTTPClient client) →
              @GetAccessToken W oauth2Cfg config tokenType
                = @GetAccessToken W' oauth2Cfg config tokenType)
  | None => ∀ W : World, @GetAccessToken W oauth2Cfg config tokenType = Panic
  end.
Proof.
  destruct config as [c|]; [|done].
  exists {| http.Client_Transport :=
              Some {| http.TLSClientConfig := Some {| http.InsecureSkipVerify := true |} |};
            http.Client_Timeout := ClientTimeout (ClientConfig_ c);
            http.Client_Jar := Some {| http.psList := true; http.entries := ∅ |} |}.
  split; [reflexivity|]. split; [reflexivity|]. split; [reflexivity|].
  intros W. split; [|split].
  - intros token err Hanswer. rewrite (@GetAccessToken_request W).
    unfold request_context. by rewrite Hanswer.
  - intros t Hanswer Hfull Hfresh Htype. rewrite (@GetAccessToken_request W).
    unfold request_context. rewrite Hanswer. cbn. rewrite Hfresh.
    destruct (String.eqb_spec (AccessToken t) "") as [|_]; [done|]. cbn.
    destruct (String.eqb_spec (TokenType t) "Bearer"); done.
  - intros W' Hclock Hanswer.
    rewrite (@GetAccessToken_request W), (@GetAccessToken_request W').
    unfold request_context. rewrite Hanswer.
    destruct (@Token_ W' _ _) as [token [err|]]; [done|].
    assert (@Valid W token = @Valid W' token) as ->; [|done].
    destruct token as [t|]; [|done]. cbn. by rewrite Hclock.
Qed.

End token_theorems.

(** * The theorems on concrete inputs *)
Section concrete.
Import fixtures.

Lemma routing_target_witness :
  ∃ vs, Create (creator ∅) sample_api = Done (Some vs, None) ∧
    ∃ route,
      Http (networkingv1beta1.Spec vs) !! 1%nat = Some route ∧
      HTTPRoute_Route route
        = [destination "oathkeeper.kyma-system.svc.cluster.local" 4455].
Proof.
  eexists. split; [vm_compute; reflexivity|].
  match goal with
  | |- context [networkingv1beta1.Spec ?vs] =>
      destruct (routing_target (creator ∅) sample_api vs None 1 proxied_rule)
        as (route & Hroute & _ & Hproxy); [vm_compute; reflexivity|reflexivity|]
  end.
  exists route. split; [exact Hroute|]. apply Hproxy. split; reflexivity.
Defined.

Lemma path_match_witness :
  ∃ vs, Create (creator ∅) sample_api = Done (Some vs, None) ∧
    ∃ route,
      Http (networkingv1beta1.Spec vs) !! 0%nat = Some route ∧
      HTTPRoute_Match route = [uri_match (StringMatch_Prefix "/")].
Proof.
  eexists. split; [vm_compute; reflexivity|].
  match goal with
  | |- context [networkingv1beta1.Spec ?vs] =>
      destruct (path_match (creator ∅) sample_api vs None 0 open_rule)
        as (route & Hroute & Hprefix & _); [vm_compute; reflexivity|reflexivity|]
  end.
  exists route. split; [exact Hroute|]. apply Hprefix. reflexivity.
Defined.

Lemma route_per_surviving_rule_witness :
  ∃ vs, Create (creator ∅) sample_api = Done (Some vs, None) ∧
    length (Http (networkingv1beta1.Spec vs)) = length (surviving_rules sample_api) ∧
    Forall2 (λ rule route, Create_route (creator ∅) sample_api rule = Done (inl route))
      (surviving_rules sample_api) (Http (networkingv1beta1.Spec vs)).
Proof.
  eexists. split; [vm_compute; reflexivity|].
  apply (route_per_surviving_rule (creator ∅) sample_api _ None).
  vm_compute; reflexivity.
Defined.

Lemma request_mutations_witness :
  (∃ vs, Create (creator ∅) sample_api = Done (Some vs, None) ∧
     ∃ route,
       Http (networkingv1beta1.Spec vs) !! 2%nat = Some route ∧
       HTTPRoute_Headers route = request_headers "foo.example" jwt_rule true false) ∧
  (∃ res, Create (creator ∅) (apirule [open_rule; broken_rule; jwt_rule]) = Done res ∧
     res = (None, Some (Foreign "malformed cookie mutator"))).
Proof.
  split.
  - eexists. split; [vm_compute; reflexivity|].
    match goal with
    | |- context [networkingv1beta1.Spec ?vs] =>
        destruct (proj1 (request_mutations (creator ∅) sample_api) vs None 2%nat jwt_rule)
          as (route & apiHost & Hroute & Hhost & Hheaders);
          [vm_compute; reflexivity|reflexivity|]
    end.
    exists route. split; [exact Hroute|].
    injection Hhost as <-. exact Hheaders.
  - eexists. split; [vm_compute; reflexivity|].
    apply (proj1 (proj2 (request_mutations (creator ∅)
                           (apirule [open_rule; broken_rule; jwt_rule])))
             _ [open_rule] broken_rule [jwt_rule]).
    + vm_compute; reflexivity.
    + reflexivity.
    + repeat constructor.
    + reflexivity.
Defined.

Lemma ownership_labels_witness :
  ∃ vs, Create (creator {[ "team" := "shop" ]}) sample_api = Done (Some vs, None) ∧
    metav1.Labels (networkingv1beta1.ObjectMeta vs) !! OwnerLabel = Some "orders.shop" ∧
    metav1.Labels (networkingv1beta1.ObjectMeta vs) !! "team" = Some "shop".
Proof.
  eexists. split; [vm_compute; reflexivity|].
  match goal with
  | |- context [networkingv1beta1.ObjectMeta ?vs] =>
      destruct (ownership_labels (creator {[ "team" := "shop" ]}) sample_api vs None)
        as (_ & _ & _ & Hextra & Hown & _); [vm_compute; reflexivity|]
  end.
  split; [apply Hown; vm_compute; reflexivity|apply Hextra; vm_compute; reflexivity].
Defined.

(** C8, as stated, fails: an additional label on the current ownership
    key replaces the owner's value. *)
Lemma ownership_label_overridden :
  ∃ vs,
    Create (creator {[ "apirule.gateway.kyma-project.io/v1beta1" := "intruder.shop" ]})
      sample_api = Done (Some vs, None) ∧
    ¬ ownership_labelled
        (creator {[ "apirule.gateway.kyma-project.io/v1beta1" := "intruder.shop" ]})
        sample_api vs.
Proof.
  eexists. split; [vm_compute; reflexivity|].
  intros [Hown _]. vm_compute in Hown. discriminate Hown.
Qed.

Lemma diff_update_or_create_witness :
  ∃ object,
    processors.EvaluateReconciliation (NewVirtualServiceProcessor (config ∅))
      context.Background (cluster [Some existing; None]) sample_api
      = Done ([NewObjectUpdateAction (Some object)], None) ∧
    same_identity object existing.
Proof.
  pose proof (proj2 (proj2 diff_update_or_create) (config ∅) context.Background
                (cluster [Some existing; None]) sample_api) as Hdiff.
  eassert (processors.getDesiredState (NewVirtualServiceProcessor (config ∅)) sample_api
           = Done (Some _, None)) as Hdesired by (vm_compute; reflexivity).
  destruct (Hdiff _ (Some existing) Hdesired eq_refl) as (_ & object & Hpass & Hid & _).
  exists object. split; [exact Hpass|exact Hid].
Defined.

Lemma one_change_or_error_witness :
  (∃ change,
     processors.EvaluateReconciliation (NewVirtualServiceProcessor (config ∅))
       context.Background (cluster [Some existing; None]) sample_api
       = Done ([change], None) ∧
     Action change = update) ∧
  (∃ change,
     processors.EvaluateReconciliation (NewVirtualServiceProcessor (config ∅))
       context.Background (cluster []) sample_api
       = Done ([change], None) ∧
     Action change = create) ∧
  processors.EvaluateReconciliation (NewVirtualServiceProcessor (config ∅))
    context.Background (broken_cluster (Foreign "connection refused")) sample_api
    = Done ([], Some (Foreign "connection refused")).
Proof.
  eassert (processors.getDesiredState (NewVirtualServiceProcessor (config ∅)) sample_api
           = Done (Some _, None)) as Hdesired by (vm_compute; reflexivity).
  split; [|split].
  - destruct (proj1 (one_change_or_error (NewVirtualServiceProcessor (config ∅))
                       context.Background (cluster [Some existing; None]) sample_api)
                _ _ Hdesired eq_refl) as (actual & change & Hactual & Hchange & Hpass).
    exists change. split; [exact Hpass|].
    injection Hactual as <-. cbn in Hchange. by injection Hchange as <-.
  - destruct (proj1 (one_change_or_error (NewVirtualServiceProcessor (config ∅))
                       context.Background (cluster []) sample_api)
                _ _ Hdesired eq_refl) as (actual & change & Hactual & Hchange & Hpass).
    exists change. split; [exact Hpass|].
    injection Hactual as <-. cbn in Hchange. by injection Hchange as <-.
  - eapply (proj1 (proj2 (proj2 (proj2
              (one_change_or_error (NewVirtualServiceProcessor (config ∅))
                 context.Background (broken_cluster (Foreign "connection refused"))
                 sample_api))))).
    + exact Hdesired.
    + reflexivity.
Defined.

Lemma actual_state_is_first_item_witness :
  processors.getActualState (NewVirtualServiceProcessor (config ∅))
    context.Background (cluster [Some existing; None]) sample_api
    = (Some existing, None).
Proof.
  apply (proj2 (proj2
           (actual_state_is_first_item (NewVirtualServiceProcessor (config ∅))
              context.Background (cluster [Some existing; None]) sample_api))
           (Some existing) [None]).
  reflexivity.
Defined.

Lemma token_or_one_failure_witness :
  (∃ result,
      jwt.GetAccessToken (world := endpoint (Some bearer, None))
        oauth2Cfg (Some jwt_config) ["jwt"] = Done result) ∧
  (∃ token answer_err,
      jwt.Token_ (World := endpoint (Some bearer, None))
        (request_config oauth2Cfg ["jwt"]) (request_context jwt_config)
        = (token, answer_err) ∧
      ∀ s (err : error), ("eyJhbGciOi", None) = (s, Some err) → s = "").
Proof.
  split.
  - apply (proj1 (token_or_one_failure (world := endpoint (Some bearer, None))
                    oauth2Cfg (Some jwt_config) ["jwt"]) jwt_config).
    reflexivity.
  - destruct (proj2 (token_or_one_failure (world := endpoint (Some bearer, None))
                       oauth2Cfg (Some jwt_config) ["jwt"]) ("eyJhbGciOi", None))
      as (c & token & answer_err & Hc & Hanswer & _ & Hempty); [reflexivity|].
    injection Hc as <-. exists token, answer_err. split; [exact Hanswer|exact Hempty].
Defined.

Lemma certificate_verification_disabled_witness :
  jwt.GetAccessToken
    (world := {| jwt.Token_ := λ _ ctx,
                   match context.Value ctx context.HTTPClient with
                   | Some client =>
                       if skips_verification client
                       then (Some bearer, None)
                       else (None, Some (Foreign "x509: unknown authority"))
                   | None => (None, Some (Foreign "x509: unknown authority"))
                   end;
                 jwt.expired := λ _, false |})
    oauth2Cfg (Some jwt_config) []
  = Done ("eyJhbGciOi", None).
Proof.
  destruct (certificate_verification_disabled oauth2Cfg (Some jwt_config) [])
    as (client & _ & Hskip & _ & Hrequest).
  match goal with
  | |- jwt.GetAccessToken (world := ?W) _ _ _ = _ =>
      destruct (Hrequest W) as (_ & Hbearer & _)
  end.
  apply (Hbearer bearer).
  - cbn. rewrite Hskip. reflexivity.
  - discriminate.
  - reflexivity.
  - reflexivity.
Defined.

End concrete.


(** * Further facts about the desired state *)
Import conditions.

Section creator_edges.
Context `{!processing.Package, !helpers.Package,
          !gatewayv1beta1.MutatorMethods, !builders.HeadersBuilder}.
Implicit Types (r : virtualServiceCreator) (api : APIRule) (rule : Rule).
Implicit Types (route : HTTPRoute) (vs : VirtualService).

Lemma wrap64_in_range z : - 2 ^ 63 ≤ z < 2 ^ 63 → wrap64 z = z.
Proof. intros Hz. unfold wrap64. rewrite Z.mod_small; lia. Qed.

Lemma wrap64_above z : 2 ^ 63 ≤ z < 2 ^ 64 → wrap64 z = z - 2 ^ 64.
Proof.
  intros Hz. unfold wrap64.
  replace (z + 2 ^ 63) with ((z - 2 ^ 63) + 1 * 2 ^ 64) by lia.
  rewrite Z.mod_add by lia. rewrite Z.mod_small; lia.
Qed.

(** Each route of a returned object comes from the round of a surviving
    rule. *)
Lemma Create_route_of_elem r api vs err route :
  Create r api = Done (Some vs, err) →
  route ∈ Http (networkingv1beta1.Spec vs) →
  ∃ rule host port cors apiHost,
    rule ∈ surviving_rules api ∧
    corsConfig r = Some cors ∧
    Spec_Host (gatewayv1beta1.Spec api) = Some apiHost ∧
    route = route_of r api rule host port cors apiHost.
Proof.
  intros (_ & ? & ? & routes & _ & _ & Hall & ->)%Create_inv_Some Hin. cbn in Hin.
  apply list_elem_of_lookup in Hin as [i Hi].
  destruct (Forall2_lookup_r _ _ _ _ _ Hall Hi) as (rule & Hrule & Hbuilt).
  apply Create_route_inl in Hbuilt as (host & port & cors & apiHost & _ & ? & ? & _ & ?).
  exists rule, host, port, cors, apiHost. repeat split; try done.
  apply list_elem_of_lookup. by exists i.
Qed.

(** X1. CORS and timeout are uniform: every route of a returned object
    has the CORS policy of the creator's configuration and the same
    timeout, whatever the rule it comes from. *)
Theorem cors_and_timeout_uniform r api vs err route :
  Create r api = Done (Some vs, err) →
  route ∈ Http (networkingv1beta1.Spec vs) →
  ∃ cors,
    corsConfig r = Some cors ∧
    HTTPRoute_CorsPolicy route =
      Some {| Cors_AllowOrigins := processing.AllowOrigins cors;
              Cors_AllowMethods := processing.AllowMethods cors;
              Cors_AllowHeaders := processing.AllowHeaders cors |} ∧
    HTTPRoute_Timeout route
      = Some (wrap64 (time_Second * wrap64 (httpTimeoutDuration r))).
Proof.
  intros Hcreate Hin.
  destruct (Create_route_of_elem _ _ _ _ _ Hcreate Hin)
    as (rule & host & port & cors & apiHost & _ & Hcors & _ & ->).
  by exists cors.
Qed.

(** X2. The timeout in nanoseconds.  For a configured number of seconds
    of absolute value at most 9223372036 the timeout of every route is
    that many seconds; from 9223372037 up to 18446744073 seconds the
    multiplication overflows and the timeout is negative. *)
Theorem timeout_seconds r api vs err route :
  Create r api = Done (Some vs, err) →
  route ∈ Http (networkingv1beta1.Spec vs) →
  (- max_seconds ≤ httpTimeoutDuration r ≤ max_seconds →
   HTTPRoute_Timeout route = Some (httpTimeoutDuration r * 1000000000)) ∧
  (max_seconds < httpTimeoutDuration r ≤ 18446744073 →
   ∃ t, HTTPRoute_Timeout route = Some t ∧ t < 0 ∧
        t = httpTimeoutDuration r * 1000000000 - 2 ^ 64).
Proof.
  intros Hcreate Hin.
  destruct (Create_route_of_elem _ _ _ _ _ Hcreate Hin)
    as (rule & host & port & cors & apiHost & _ & _ & _ & ->).
  cbn. unfold max_seconds, time_Second. split; intros Hd.
  - rewrite (wrap64_in_range (httpTimeoutDuration r)) by lia.
    rewrite wrap64_in_range by lia. f_equal. lia.
  - rewrite (wrap64_in_range (httpTimeoutDuration r)) by lia.
    rewrite wrap64_above by lia. eexists. split; [done|]. lia.
Qed.

(** X3. Host, gateway and generated name.  A returned object has exactly
    one host, the APIRule's host with the default domain, exactly one
    gateway, the APIRule's, and asks for a name generated from the
    APIRule's name; the host rewrite of every route uses the very host of
    the object. *)
Theorem host_gateway_and_name r api vs err :
  Create r api = Done (Some vs, err) →
  ∃ apiHost apiGateway,
    Spec_Host (gatewayv1beta1.Spec api) = Some apiHost ∧
    Spec_Gateway (gatewayv1beta1.Spec api) = Some apiGateway ∧
    Hosts (networkingv1beta1.Spec vs) = [GetHostWithDomain apiHost (defaultDomainName r)] ∧
    Gateways (networkingv1beta1.Spec vs) = [apiGateway] ∧
    metav1.GenerateName (networkingv1beta1.ObjectMeta vs)
      = metav1.Name (gatewayv1beta1.ObjectMeta api) +:+ "-" ∧
    ∀ route, route ∈ Http (networkingv1beta1.Spec vs) →
      ∃ rule host cookies headers,
        Hosts (networkingv1beta1.Spec vs) = [host] ∧
        HTTPRoute_Headers route = request_headers host rule cookies headers.
Proof.
  intros Hcreate.
  pose proof (Create_inv_Some _ _ _ _ Hcreate)
    as (_ & apiHost & apiGateway & routes & Hhost & Hgw & _ & Hvs).
  exists apiHost, apiGateway. rewrite Hvs at 1 2 3. repeat split; try done.
  intros route Hin.
  destruct (Create_route_of_elem _ _ _ _ _ Hcreate Hin)
    as (rule & host & port & cors & apiHost' & _ & _ & Hhost' & ->).
  rewrite Hhost in Hhost'. injection Hhost' as <-.
  rewrite Hvs. cbn. by eexists rule, _, _, _.
Qed.

Lemma round_panics_false r api rule :
  round_panics r api rule = false →
  ∃ host port cors, target_of r api rule host port ∧ corsConfig r = Some cors.
Proof.
  unfold round_panics, target_of, service_completeb. intros Hround.
  apply orb_false_iff in Hround as [Hservice Hcors].
  destruct (corsConfig r) as [cors|]; [|discriminate].
  destruct (negb (IsSecured rule) || IsJwtSecured rule).
  - cbn in Hservice. apply negb_false_iff in Hservice.
    destruct (backend_service api rule) as [s|]; [|discriminate].
    destruct (Service_Name s) as [name|] eqn:?; [|discriminate].
    destruct (Service_Port s) as [port|] eqn:?; [|discriminate].
    exists (GetHostLocalDomain name (FindServiceNamespace api rule)), port, cors.
    split; [|done]. by exists s, name.
  - by exists (oathkeeperSvc r), (oathkeeperSvcPort r), cors.
Qed.

Lemma round_panics_true r api rule :
  round_panics r api rule = true → Create_route r api rule = Panic.
Proof.
  unfold round_panics, service_completeb, backend_service, Create_route.
  intros Hround.
  destruct (IsSecured rule), (IsJwtSecured rule); cbn [negb orb andb] in *.
  all: destruct (Rule_Service rule) as [rs|]; cbn in *.
  all: repeat
    match goal with
    | |- context [deref ?o] => destruct o eqn:?; cbn in *
    end; try discriminate; try reflexivity.
Qed.

(** A round that dereferences no nil pointer ends as the mutators
    decide. *)
Lemma Create_route_sound r api rule apiHost :
  Spec_Host (gatewayv1beta1.Spec api) = Some apiHost →
  round_panics r api rule = false →
  ∃ route,
    Create_route r api rule =
      Done (match mutator_failure rule with
            | Some err => inr err
            | None => inl route
            end).
Proof.
  intros Hhost (host & port & cors & Htarget & Hcors)%round_panics_false.
  exists (route_of r api rule host port cors apiHost).
  by apply Create_route_eq.
Qed.

(** What the loop does up to its first round that panics or fails. *)
Lemma Create_loop_prefix r api pre rest (s : VirtualServiceSpec) apiHost :
  Spec_Host (gatewayv1beta1.Spec api) = Some apiHost →
  Forall (λ x, round_panics r api x = false ∧ mutator_failure x = None) pre →
  ∃ s', Create_loop r api (pre ++ rest)%list s = Create_loop r api rest s'.
Proof.
  intros Hhost Hpre. revert s.
  induction Hpre as [|x pre [Hround Hmut] _ IH]; intros s; cbn; [by eexists|].
  destruct (Create_route_sound r api x apiHost Hhost Hround) as [route ->].
  rewrite Hmut. cbn. apply IH.
Qed.

Lemma Create_loop_Panic r api rules (s : VirtualServiceSpec) apiHost :
  Spec_Host (gatewayv1beta1.Spec api) = Some apiHost →
  Create_loop r api rules s = Panic →
  ∃ pre rule post,
    rules = (pre ++ rule :: post)%list ∧
    Forall (λ x, round_panics r api x = false ∧ mutator_failure x = None) pre ∧
    round_panics r api rule = true.
Proof.
  intros Hhost. revert s.
  induction rules as [|x rest IH]; intros s Hloop; cbn in Hloop; [discriminate|].
  destruct (round_panics r api x) eqn:Hround.
  { exists [], x, rest. by repeat split. }
  destruct (Create_route_sound r api x apiHost Hhost Hround) as [route Hroute].
  rewrite Hroute in Hloop.
  destruct (mutator_failure x) eqn:Hmut; cbn in Hloop; [discriminate|].
  destruct (IH _ Hloop) as (pre & rule & post & -> & Hpre & Hrule).
  exists (x :: pre), rule, post. split; [done|]. split; [|done].
  by constructor.
Qed.

(** When [Create] panics on an APIRule that is there. *)
Lemma Create_panics_on_value r api :
  Create r api = Panic ↔
  Spec_Host (gatewayv1beta1.Spec api) = None ∨
  Spec_Gateway (gatewayv1beta1.Spec api) = None ∨
  ∃ pre rule post,
    surviving_rules api = (pre ++ rule :: post)%list ∧
    Forall (λ x, round_panics r api x = false ∧ mutator_failure x = None) pre ∧
    round_panics r api rule = true.
Proof.
  unfold Create. fold (surviving_rules api).
  destruct (Spec_Host (gatewayv1beta1.Spec api)) as [apiHost|] eqn:Hhost; cbn;
    [|by split; [left|]].
  destruct (Spec_Gateway (gatewayv1beta1.Spec api)) as [apiGateway|] eqn:Hgw; cbn;
    [|by split; [right; left|]].
  split.
  - intros Hcreate. right; right.
    destruct (Create_loop _ _ _ _) as [[s'|err]|] eqn:Hloop; try discriminate.
    by eapply Create_loop_Panic.
  - intros [[=]|[[=]|(pre & rule & post & -> & Hpre & Hrule)]].
    edestruct (Create_loop_prefix r api pre (rule :: post)) as [s' ->]; [done..|].
    cbn. by rewrite (round_panics_true _ _ _ Hrule).
Qed.

(** X4. When [Create] panics.  [Create] dereferences a nil pointer
    exactly when its APIRule argument is nil, or the APIRule has no host,
    or no gateway, or some surviving rule whose round panics (a missing
    backend service, name or port of a rule routed to its backend, or a
    missing CORS configuration) is reached: every surviving rule before
    it neither panics nor fails to construct its mutators. *)
Theorem Create_panics_iff r (pointer : option APIRule) :
  Create_ptr r pointer = Panic ↔
  pointer = None ∨
  ∃ api,
    pointer = Some api ∧
    (Spec_Host (gatewayv1beta1.Spec api) = None ∨
     Spec_Gateway (gatewayv1beta1.Spec api) = None ∨
     ∃ pre rule post,
       surviving_rules api = (pre ++ rule :: post)%list ∧
       Forall (λ x, round_panics r api x = false ∧ mutator_failure x = None) pre ∧
       round_panics r api rule = true).
Proof.
  destruct pointer as [api|]; cbn; [|by split; [left|]].
  rewrite Create_panics_on_value. split.
  - intros Hpanics. right. by exists api.
  - by intros [[=]|(? & [= <-] & Hpanics)].
Qed.

(** X5. No surviving rule.  With a host and a gateway and no surviving
    rule, [Create] returns an object without routes and no error; it reads
    neither the CORS configuration nor any service. *)
Theorem Create_without_rules r api apiHost apiGateway :
  Spec_Host (gatewayv1beta1.Spec api) = Some apiHost →
  Spec_Gateway (gatewayv1beta1.Spec api) = Some apiGateway →
  surviving_rules api = [] →
  ∃ vs,
    Create r api = Done (Some vs, None) ∧
    Http (networkingv1beta1.Spec vs) = [] ∧
    Hosts (networkingv1beta1.Spec vs) = [GetHostWithDomain apiHost (defaultDomainName r)] ∧
    Gateways (networkingv1beta1.Spec vs) = [apiGateway].
Proof.
  intros Hhost Hgw Hnone. unfold Create. fold (surviving_rules api).
  rewrite Hhost, Hgw, Hnone. cbn. by eexists.
Qed.

(** X6. Abort at the first failure.  When the rounds of the surviving
    rules before [rule] build their routes and the mutators of [rule]
    cannot be constructed, [Create] returns that error and no object,
    whatever the rules after [rule] are: they are never looked at. *)
Theorem Create_aborts_at_first_failure r api apiHost apiGateway pre rule post failure :
  Spec_Host (gatewayv1beta1.Spec api) = Some apiHost →
  Spec_Gateway (gatewayv1beta1.Spec api) = Some apiGateway →
  surviving_rules api = (pre ++ rule :: post)%list →
  Forall (λ x, round_panics r api x = false ∧ mutator_failure x = None) pre →
  round_panics r api rule = false →
  mutator_failure rule = Some failure →
  Create r api = Done (None, Some failure).
Proof.
  intros Hhost Hgw Hsplit Hpre Hround Hfailure.
  unfold Create. fold (surviving_rules api). rewrite Hhost, Hgw, Hsplit. cbn.
  edestruct (Create_loop_prefix r api pre (rule :: post)) as [s' ->]; [done..|].
  cbn. destruct (Create_route_sound r api rule apiHost Hhost Hround) as [route ->].
  by rewrite Hfailure.
Qed.

End creator_edges.

(** * Further facts about a pass *)
Section pass_edges.
Context `{!processing.Package, !helpers.Package,
          !gatewayv1beta1.MutatorMethods, !builders.HeadersBuilder}.
Implicit Types (p : processors.VirtualServiceProcessor) (ctx : context.Context).
Implicit Types (client : ctrlclient.Client) (api : APIRule).
Implicit Types (config : ReconciliationConfig) (r : virtualServiceCreator).

Import processors.

(** The creator that [NewVirtualServiceProcessor] makes of a
    configuration. *)
Lemma NewVirtualServiceProcessor_desired config api :
  getDesiredState (NewVirtualServiceProcessor config) api =
    istio.Create
      {| oathkeeperSvc := OathkeeperSvc config;
         oathkeeperSvcPort := OathkeeperSvcPort config;
         corsConfig := CorsConfig_ config;
         additionalLabels := AdditionalLabels config;
         defaultDomainName := DefaultDomainName config;
         httpTimeoutDuration := HTTPTimeoutDuration config |} api.
Proof. reflexivity. Qed.

(** [getActualState] does not read its receiver. *)
Lemma getActualState_receiver p p' ctx client api :
  getActualState p ctx client api = getActualState p' ctx client api.
Proof. reflexivity. Qed.

(** X7. A pass of the Istio processor does not panic in the diff: once
    the construction of the desired state returns, the pass returns,
    whatever the cluster answers, because the Istio creator never returns
    a nil object without an error. *)
Theorem istio_pass_returns config ctx client api res :
  getDesiredState (NewVirtualServiceProcessor config) api = Done res →
  (res.1 = None ↔ is_Some res.2) ∧
  ∃ out, EvaluateReconciliation (NewVirtualServiceProcessor config) ctx client api
           = Done out.
Proof.
  intros Hdesired. unfold EvaluateReconciliation. rewrite Hdesired. cbn.
  rewrite NewVirtualServiceProcessor_desired in Hdesired.
  apply Create_inv in Hdesired
    as [(? & ? & ? & _ & _ & _ & ->)|(err & ? & ? & ? & _ & _ & _ & ->)]; cbn.
  - split; [split; [done|by intros [? [=]]]|].
    destruct (getActualState _ ctx client api) as [[actual|] [err|]]; by eexists.
  - split; [by split|]. by eexists.
Qed.

(** X8. A creator that returns neither an object nor an error.  With an
    actual object in the cluster the pass panics on the nil desired
    object; without one it emits a create that carries no object. *)
Theorem nil_desired_state p ctx client api (found : option VirtualService) :
  getDesiredState p api = Done (None, None) →
  getActualState p ctx client api = (found, None) →
  EvaluateReconciliation p ctx client api =
    match found with
    | Some _ => Panic
    | None => Done ([NewObjectCreateAction None], None)
    end.
Proof.
  intros Hdesired Hactual.
  rewrite (EvaluateReconciliation_diff _ _ _ _ _ _ Hdesired Hactual).
  by destruct found.
Qed.

(** X9. No suppression of an update that changes nothing.  When the
    actual object already has the desired Spec, the diff still emits an
    update, of the actual object as it is; and the object of any update
    is a fixed point of the diff: diffing the desired object against it
    emits the same update again. *)
Theorem update_without_change p (desired actual : VirtualService) :
  (networkingv1beta1.Spec actual = networkingv1beta1.Spec desired →
   getObjectChanges p (Some desired) (Some actual)
     = Done (NewObjectUpdateAction (Some actual))) ∧
  ∃ object,
    getObjectChanges p (Some desired) (Some actual)
      = Done (NewObjectUpdateAction (Some object)) ∧
    getObjectChanges p (Some desired) (Some object)
      = Done (NewObjectUpdateAction (Some object)).
Proof.
  split.
  - intros Hsame. cbn. rewrite <- Hsame. by destruct actual.
  - by eexists.
Qed.

Lemma Create_route_with_labels labels r api rule :
  Create_route (with_labels labels r) api rule = Create_route r api rule.
Proof. reflexivity. Qed.

Lemma Create_loop_with_labels labels r api rules (s : VirtualServiceSpec) :
  Create_loop (with_labels labels r) api rules s = Create_loop r api rules s.
Proof.
  revert s. induction rules as [|rule rest IH]; intros s; cbn; [done|].
  rewrite Create_route_with_labels.
  destruct (Create_route r api rule) as [[route|err]|]; cbn; [apply IH|done..].
Qed.

(** The additional labels reach the labels of the desired object and
    nothing else. *)
Lemma Create_with_labels labels r api :
  match istio.Create r api, istio.Create (with_labels labels r) api with
  | Done (Some vs, err), Done (Some vs', err') =>
      networkingv1beta1.Spec vs = networkingv1beta1.Spec vs' ∧ err = err'
  | Done (None, err), Done (None, err') => err = err'
  | Panic, Panic => True
  | _, _ => False
  end.
Proof.
  unfold istio.Create.
  destruct (Spec_Host (gatewayv1beta1.Spec api)); cbn; [|done].
  destruct (Spec_Gateway (gatewayv1beta1.Spec api)); cbn; [|done].
  rewrite Create_loop_with_labels.
  destruct (Create_loop _ _ _ _) as [[s'|err]|]; by cbn.
Qed.

(** X10. Labels of an existing object.  When the lookup finds an actual
    object, the pass of the Istio processor does not depend on the
    additional labels of the configuration: the update carries the labels
    of the actual object, so a change of the configured labels never
    reaches an object that exists. *)
Theorem labels_not_updated config labels ctx client api (actual : VirtualService) :
  getActualState (NewVirtualServiceProcessor config) ctx client api
    = (Some actual, None) →
  EvaluateReconciliation (NewVirtualServiceProcessor (config_with_labels labels config))
    ctx client api
  = EvaluateReconciliation (NewVirtualServiceProcessor config) ctx client api.
Proof.
  intros Hactual. unfold EvaluateReconciliation.
  rewrite (getActualState_receiver _ (NewVirtualServiceProcessor config)), Hactual.
  rewrite !NewVirtualServiceProcessor_desired.
  pose proof (Create_with_labels labels
    {| oathkeeperSvc := OathkeeperSvc config;
       oathkeeperSvcPort := OathkeeperSvcPort config;
       corsConfig := CorsConfig_ config;
       additionalLabels := AdditionalLabels config;
       defaultDomainName := DefaultDomainName config;
       httpTimeoutDuration := HTTPTimeoutDuration config |} api) as Hlabels.
  unfold with_labels, config_with_labels in *. cbn in *.
  destruct (istio.Create _ api) as [[[vs|] err]|],
    (istio.Create _ api) as [[[vs'|] err']|];
    try done.
  - destruct Hlabels as [Hspec <-]. destruct err; cbn; [done|]. by rewrite Hspec.
  - by subst err'.
Qed.

(** X11. What a pass asks the cluster.  A pass asks the client one
    question, the list selected by the owner labels of the APIRule under
    the caller's context, and uses of the answer only the error and, when
    there is none, the first item: two clients whose answers agree on
    these make the same pass. *)
Theorem pass_depends_on_first_item p ctx client client' api list list' err :
  ctrlclient.List client ctx (GetOwnerLabels api) = (list, err) →
  ctrlclient.List client' ctx (GetOwnerLabels api) = (list', err) →
  (err = None → head (Items list) = head (Items list')) →
  EvaluateReconciliation p ctx client api = EvaluateReconciliation p ctx client' api.
Proof.
  intros Hlist Hlist' Hhead.
  assert (getActualState p ctx client api = getActualState p ctx client' api) as Hsame.
  { unfold getActualState. rewrite Hlist, Hlist'.
    destruct err as [e|]; [done|]. specialize (Hhead eq_refl).
    destruct (Items list) as [|first rest], (Items list') as [|first' rest'];
      cbn in *; congruence. }
  unfold EvaluateReconciliation. by rewrite Hsame.
Qed.

(** X13. The configuration reaches the desired state.  In the desired
    object of [NewVirtualServiceProcessor config], the route of a
    proxy-mediated rule leads to the oathkeeper service and port of
    [config], every route has the CORS policy of [config], the host is
    completed with the default domain of [config] and every additional
    label of [config] is on the object. *)
Theorem configuration_reaches_desired_state config api vs err :
  getDesiredState (NewVirtualServiceProcessor config) api = Done (Some vs, err) →
  (∀ (i : nat) rule,
      surviving_rules api !! i = Some rule →
      IsSecured rule = true → IsJwtSecured rule = false →
      ∃ route, Http (networkingv1beta1.Spec vs) !! i = Some route ∧
               HTTPRoute_Route route
                 = [destination (OathkeeperSvc config) (OathkeeperSvcPort config)]) ∧
  (∀ route, route ∈ Http (networkingv1beta1.Spec vs) →
      ∃ cors, CorsConfig_ config = Some cors ∧
              HTTPRoute_CorsPolicy route =
                Some {| Cors_AllowOrigins := processing.AllowOrigins cors;
                        Cors_AllowMethods := processing.AllowMethods cors;
                        Cors_AllowHeaders := processing.AllowHeaders cors |} ∧
              HTTPRoute_Timeout route
                = Some (wrap64 (time_Second * wrap64 (HTTPTimeoutDuration config)))) ∧
  (∃ apiHost, Spec_Host (gatewayv1beta1.Spec api) = Some apiHost ∧
              Hosts (networkingv1beta1.Spec vs)
                = [GetHostWithDomain apiHost (DefaultDomainName config)]) ∧
  (∀ k v, AdditionalLabels config !! k = Some v →
          metav1.Labels (networkingv1beta1.ObjectMeta vs) !! k = Some v).
Proof.
  rewrite NewVirtualServiceProcessor_desired. intros Hcreate.
  split; [|split; [|split]].
  - intros i rule Hi Hsec Hjwt.
    destruct (Create_route_at _ _ _ _ _ _ Hcreate Hi)
      as (route & host & port & cors & apiHost & Hroute & Htarget & _ & _ & _ & Hshape).
    exists route. split; [done|]. subst route.
    unfold target_of in Htarget. rewrite Hsec, Hjwt in Htarget.
    by destruct Htarget as [-> ->].
  - intros route Hin.
    destruct (Create_route_of_elem _ _ _ _ _ Hcreate Hin)
      as (rule & host & port & cors & apiHost & _ & Hcors & _ & ->).
    by exists cors.
  - apply Create_inv_Some in Hcreate as (_ & apiHost & ? & ? & Hhost & _ & _ & ->).
    by exists apiHost.
  - apply Create_inv_Some in Hcreate as (_ & ? & ? & ? & _ & _ & _ & ->).
    intros k v Hk. cbn. by apply lookup_union_Some_l.
Qed.

End pass_edges.

(** * Further facts about the token helper *)
Section token_edges.
Import oauth2 jwt.
Implicit Types (oauth2Cfg : clientcredentials.Config) (config : option jwt.Config).

Lemma request_config_format oauth2Cfg oauth2Cfg' format rest :
  same_credentials oauth2Cfg oauth2Cfg' →
  request_config oauth2Cfg (format :: rest) = request_config oauth2Cfg' [format].
Proof. intros (Hid & Hsecret & Hurl & Hscopes). cbn. congruence. Qed.

(** X12. The token format.  With a token format, the endpoint parameters
    of the caller's configuration are dropped and token formats after the
    first are ignored: the result is that of a call with any other
    endpoint parameters and the first token format alone. *)
Theorem token_format_replaces_parameters {world : World}
    oauth2Cfg oauth2Cfg' config format rest :
  same_credentials oauth2Cfg oauth2Cfg' →
  GetAccessToken oauth2Cfg config (format :: rest)
    = GetAccessToken oauth2Cfg' config [format].
Proof.
  intros Hsame. destruct config as [c|]; [|done].
  by rewrite !GetAccessToken_request, (request_config_format _ _ _ _ Hsame).
Qed.

(** X14. When a token is returned.  With a configuration,
    [GetAccessToken] returns a string and no error exactly when the
    request is answered without error by a token whose access token is
    not empty, which has not expired and whose type is exactly "Bearer";
    the string is then that access token. *)
Theorem token_returned_iff {world : World} oauth2Cfg (c : jwt.Config)
    (tokenType : list string) (s : string) :
  GetAccessToken oauth2Cfg (Some c) tokenType = Done (s, None) ↔
  ∃ t, Token_ (request_config oauth2Cfg tokenType) (request_context c) = (Some t, None) ∧
       AccessToken t ≠ "" ∧ expired t = false ∧ TokenType t = "Bearer" ∧
       s = AccessToken t.
Proof.
  rewrite GetAccessToken_request.
  destruct (Token_ _ _) as [token [err|]].
  { split; [discriminate|]. by intros (? & [=] & _). }
  destruct token as [t|]; cbn.
  2:{ split; [discriminate|]. by intros (? & [=] & _). }
  destruct (String.eqb_spec (AccessToken t) "") as [Hempty|Hfull]; cbn.
  { split; [discriminate|]. intros (? & [= <-] & ? & _). done. }
  destruct (expired t) eqn:Hexpired; cbn.
  { split; [discriminate|]. intros (? & [= <-] & _ & ? & _). congruence. }
  destruct (String.eqb_spec (TokenType t) "Bearer") as [Htype|Htype].
  - split.
    + intros [= <-]. by exists t.
    + by intros (? & [= <-] & _ & _ & _ & ->).
  - split; [discriminate|]. intros (? & [= <-] & _ & _ & ? & _). done.
Qed.

End token_edges.


(** * The further facts on concrete inputs *)
Module samples.
Import gatewayv1beta1 networkingv1beta1 fixtures.

(** A creator without CORS configuration. *)
Definition creator_without_cors : istio.virtualServiceCreator :=
  {| istio.oathkeeperSvc := "oathkeeper.kyma-system.svc.cluster.local";
     istio.oathkeeperSvcPort := 4455;
     istio.corsConfig := None;
     istio.defaultDomainName := "kyma.local";
     istio.additionalLabels := ∅;
     istio.httpTimeoutDuration := 180 |}.

(** An open rule whose service has neither name nor port. *)
Definition nameless_rule : Rule :=
  rule "/late"
    (Some {| Service_Name := None; Service_Namespace := None;
             Service_Port := None; Service_IsExternal := None |})
    ["allow"] [].

(** A processor whose creator returns neither an object nor an error. *)
Definition silent_processor : processors.VirtualServiceProcessor :=
  {| processors.Creator := {| processors.Create := λ _, Done (None, None) |} |}.

(** An object with the Spec of [existing] and no metadata. *)
Definition unchanged : VirtualService :=
  {| networkingv1beta1.ObjectMeta := metav1.ObjectMeta_zero;
     networkingv1beta1.Spec := networkingv1beta1.Spec existing |}.

Definition oauth2Cfg_with_params : clientcredentials.Config :=
  {| clientcredentials.ClientID := "client";
     clientcredentials.ClientSecret := "secret";
     clientcredentials.TokenURL := "https://auth.example/oauth2/token";
     clientcredentials.Scopes := ["read"];
     clientcredentials.EndpointParams := {[ "audience" := ["orders"] ]} |}.

End samples.

Section concrete_edges.
Import fixtures samples.

Lemma cors_and_timeout_uniform_witness :
  ∃ vs, Create (creator ∅) sample_api = Done (Some vs, None) ∧
    ∀ route, route ∈ Http (networkingv1beta1.Spec vs) →
      HTTPRoute_Timeout route = Some 180000000000.
Proof.
  eexists. split; [vm_compute; reflexivity|].
  intros route Hin.
  match type of Hin with
  | context [networkingv1beta1.Spec ?vs] =>
      destruct (cors_and_timeout_uniform (creator ∅) sample_api vs None route)
        as (cors & _ & _ & Htimeout); [vm_compute; reflexivity|exact Hin|]
  end.
  exact Htimeout.
Defined.

Lemma timeout_seconds_witness :
  ∃ vs, Create (creator ∅) sample_api = Done (Some vs, None) ∧
    ∀ route, route ∈ Http (networkingv1beta1.Spec vs) →
      HTTPRoute_Timeout route = Some (180 * 1000000000).
Proof.
  eexists. split; [vm_compute; reflexivity|].
  intros route Hin.
  match type of Hin with
  | context [networkingv1beta1.Spec ?vs] =>
      destruct (timeout_seconds (creator ∅) sample_api vs None route)
        as [Hexact _]; [vm_compute; reflexivity|exact Hin|]
  end.
  apply Hexact. unfold max_seconds. cbn. lia.
Defined.

Lemma host_gateway_and_name_witness :
  ∃ vs, Create (creator ∅) sample_api = Done (Some vs, None) ∧
    Hosts (networkingv1beta1.Spec vs) = ["foo.example"] ∧
    Gateways (networkingv1beta1.Spec vs) = ["ns/gw"] ∧
    metav1.GenerateName (networkingv1beta1.ObjectMeta vs) = "orders-".
Proof.
  eexists. split; [vm_compute; reflexivity|].
  match goal with
  | |- context [networkingv1beta1.Spec ?vs] =>
      destruct (host_gateway_and_name (creator ∅) sample_api vs None)
        as (apiHost & apiGateway & Hhost & Hgw & Hhosts & Hgateways & Hname & _);
        [vm_compute; reflexivity|]
  end.
  injection Hhost as <-. injection Hgw as <-.
  split; [exact Hhosts|]. split; [exact Hgateways|exact Hname].
Defined.

Lemma Create_panics_iff_witness :
  Create_ptr creator_without_cors (Some sample_api) = Panic ∧
  Create_ptr (creator ∅) None = Panic.
Proof.
  split.
  - apply (proj2 (Create_panics_iff creator_without_cors (Some sample_api))).
    right. exists sample_api. split; [reflexivity|].
    right; right. exists [], open_rule, [proxied_rule; jwt_rule].
    split; [reflexivity|]. split; [constructor|reflexivity].
  - apply (proj2 (Create_panics_iff (creator ∅) None)). by left.
Defined.

Lemma Create_without_rules_witness :
  ∃ vs, Create creator_without_cors (apirule []) = Done (Some vs, None) ∧
    Http (networkingv1beta1.Spec vs) = [] ∧
    Hosts (networkingv1beta1.Spec vs) = ["foo.example"] ∧
    Gateways (networkingv1beta1.Spec vs) = ["ns/gw"].
Proof.
  exact (Create_without_rules creator_without_cors (apirule []) "foo.example" "ns/gw"
           eq_refl eq_refl eq_refl).
Defined.

Lemma Create_aborts_at_first_failure_witness :
  Create (creator ∅) (apirule [open_rule; broken_rule; nameless_rule])
    = Done (None, Some (Foreign "malformed cookie mutator")).
Proof.
  apply (Create_aborts_at_first_failure (creator ∅)
           (apirule [open_rule; broken_rule; nameless_rule]) "foo.example" "ns/gw"
           [open_rule] broken_rule [nameless_rule]); try reflexivity.
  repeat constructor.
Defined.

Lemma istio_pass_returns_witness :
  ∃ out,
    processors.EvaluateReconciliation (NewVirtualServiceProcessor (config ∅))
      context.Background (cluster [Some existing]) sample_api = Done out.
Proof.
  eassert (processors.getDesiredState (NewVirtualServiceProcessor (config ∅)) sample_api
           = Done _) as Hdesired by (vm_compute; reflexivity).
  exact (proj2 (istio_pass_returns (config ∅) context.Background
                  (cluster [Some existing]) sample_api _ Hdesired)).
Defined.

Lemma nil_desired_state_witness :
  processors.EvaluateReconciliation silent_processor context.Background
    (cluster [Some existing]) sample_api = Panic.
Proof.
  apply (nil_desired_state silent_processor context.Background
           (cluster [Some existing]) sample_api (Some existing)); reflexivity.
Defined.

Lemma update_without_change_witness :
  processors.getObjectChanges silent_processor (Some unchanged) (Some existing)
    = Done (NewObjectUpdateAction (Some existing)).
Proof.
  apply (proj1 (update_without_change silent_processor unchanged existing)).
  reflexivity.
Defined.

Lemma labels_not_updated_witness :
  processors.EvaluateReconciliation
    (NewVirtualServiceProcessor (config_with_labels {[ "team" := "shop" ]} (config ∅)))
    context.Background (cluster [Some existing]) sample_api
  = processors.EvaluateReconciliation (NewVirtualServiceProcessor (config ∅))
      context.Background (cluster [Some existing]) sample_api.
Proof.
  apply (labels_not_updated (config ∅) {[ "team" := "shop" ]} context.Background
           (cluster [Some existing]) sample_api existing).
  reflexivity.
Defined.

Lemma pass_depends_on_first_item_witness :
  processors.EvaluateReconciliation (NewVirtualServiceProcessor (config ∅))
    context.Background (cluster [Some existing]) sample_api
  = processors.EvaluateReconciliation (NewVirtualServiceProcessor (config ∅))
      context.Background (cluster [Some existing; None; Some unchanged]) sample_api.
Proof.
  eapply (pass_depends_on_first_item (NewVirtualServiceProcessor (config ∅))
            context.Background (cluster [Some existing])
            (cluster [Some existing; None; Some unchanged]) sample_api);
    reflexivity.
Defined.

Lemma token_format_replaces_parameters_witness :
  jwt.GetAccessToken (world := endpoint (Some bearer, None))
    oauth2Cfg_with_params (Some jwt_config) ["jwt"; "opaque"]
  = jwt.GetAccessToken (world := endpoint (Some bearer, None))
      oauth2Cfg (Some jwt_config) ["jwt"].
Proof.
  apply (token_format_replaces_parameters (world := endpoint (Some bearer, None))).
  repeat split.
Defined.

Lemma configuration_reaches_desired_state_witness :
  ∃ vs,
    processors.getDesiredState (NewVirtualServiceProcessor (config {[ "team" := "shop" ]}))
      sample_api = Done (Some vs, None) ∧
    metav1.Labels (networkingv1beta1.ObjectMeta vs) !! "team" = Some "shop".
Proof.
  eexists. split; [vm_compute; reflexivity|].
  match goal with
  | |- context [networkingv1beta1.ObjectMeta ?vs] =>
      destruct (configuration_reaches_desired_state (config {[ "team" := "shop" ]})
                  sample_api vs None) as (_ & _ & _ & Hlabels);
        [vm_compute; reflexivity|]
  end.
  apply Hlabels. vm_compute; reflexivity.
Defined.

Lemma token_returned_iff_witness :
  jwt.GetAccessToken (world := endpoint (Some bearer, None))
    oauth2Cfg (Some jwt_config) [] = Done ("eyJhbGciOi", None).
Proof.
  apply (proj2 (token_returned_iff (world := endpoint (Some bearer, None))
                  oauth2Cfg jwt_config [] "eyJhbGciOi")).
  exists bearer. repeat split. discriminate.
Defined.

End concrete_edges.
